(** * Task monitor tools: a shallow embedding of [src/tools/task_monitor_tool.py]

    The module exposes two tool functions, [task_monitor] and
    [task_log_reader].  Both read a workspace on disk, create sample data
    on first use and answer with a string.  The embedding follows the
    Python text statement by statement:

    - JSON values as [json.load] produces them are the inductive [json];
      a Python [dict] is an association list in insertion order;
    - the file system is a finite map from paths to nodes (a regular file
      with its text, or a directory); every function threads it
      explicitly through the state-and-exception monad [M];
    - Python exceptions are values of [exn]; a raised exception that the
      source does not catch is the [Raise] outcome of the call;
    - [json.loads] is a parameter of the development (a [Section]
      variable): the theorems hold for whatever parser is plugged in;
    - a returned [json.dumps(d, ensure_ascii=False, indent=2)] is kept as
      [JsonText d], a returned bare [str] as [PlainText s]; [render] gives
      the characters of either.

    Paths are compared as written (POSIX, no symbolic links), a file holds
    bytes, and the input/output failures are those of the file system
    state itself: a directory where a file is expected, a file where a
    directory is expected, and bytes that are not UTF-8 where text is
    read. *)

From Stdlib Require Import ZArith String Ascii List Lia.
From stdpp Require Import base gmap strings list pretty.

Set Warnings "-register-all".

Open Scope string_scope.
Open Scope Z_scope.

(** ** Characters and strings *)

Definition LF : ascii := ascii_of_nat 10.
Definition CR : ascii := ascii_of_nat 13.
Definition slash : ascii := ascii_of_nat 47.
Definition dquote : ascii := ascii_of_nat 34.
Definition backslash : ascii := ascii_of_nat 92.

Definition str1 (c : ascii) : string := String c EmptyString.

Definition is_empty (s : string) : bool :=
  match s with EmptyString => true | String _ _ => false end.

(** [s.startswith('/')] and [s.endswith('/')]. *)
Definition starts_with_slash (s : string) : bool :=
  match s with String c _ => Ascii.eqb c slash | EmptyString => false end.

Fixpoint ends_with_slash (s : string) : bool :=
  match s with
  | EmptyString => false
  | String c EmptyString => Ascii.eqb c slash
  | String _ rest => ends_with_slash rest
  end.

(** The character [c] occurs in [s]. *)
Fixpoint has_char (c : ascii) (s : string) : bool :=
  match s with
  | EmptyString => false
  | String c' rest => Ascii.eqb c' c || has_char c rest
  end.

(** ** JSON values *)

(** What [json.load] returns: [None], [bool], [int], [float], [str], [list]
    and [dict] with [str] keys.  The code never computes with a number, so
    a float is carried by the text [json.dumps] prints for it. *)
Inductive json : Type :=
| JNull
| JBool (b : bool)
| JInt (n : Z)
| JFloat (repr : string)
| JStr (s : string)
| JArr (items : list json)
| JObj (fields : list (string * json)).

(** Lookup in an insertion-ordered dictionary. *)
Fixpoint assoc {A : Type} (k : string) (kvs : list (string * A)) : option A :=
  match kvs with
  | [] => None
  | (k', v) :: rest => if String.eqb k k' then Some v else assoc k rest
  end.

(** *** [json.dumps(v, ensure_ascii=False, indent=2)] *)

Definition hex_digit (n : nat) : ascii :=
  ascii_of_nat (if Nat.ltb n 10 then 48 + n else 87 + n)%nat.

(** One character of a string literal: [ESCAPE_DCT] of [json.encoder];
    with [ensure_ascii=False] only the quote, the backslash and the control
    characters below 0x20 are escaped. *)
Definition escape_char (c : ascii) : string :=
  let n := nat_of_ascii c in
  if Ascii.eqb c dquote then String backslash (str1 dquote)
  else if Ascii.eqb c backslash then String backslash (str1 backslash)
  else if Nat.eqb n 8 then String backslash "b"
  else if Nat.eqb n 12 then String backslash "f"
  else if Nat.eqb n 10 then String backslash "n"
  else if Nat.eqb n 13 then String backslash "r"
  else if Nat.eqb n 9 then String backslash "t"
  else if Nat.ltb n 32 then
    String backslash ("u00" +:+ String (hex_digit (n / 16)) (str1 (hex_digit (n mod 16))))
  else str1 c.

Fixpoint escape (s : string) : string :=
  match s with
  | EmptyString => EmptyString
  | String c rest => escape_char c +:+ escape rest
  end.

Definition encode_basestring (s : string) : string :=
  String dquote (escape s +:+ str1 dquote).

Fixpoint spaces (n : nat) : string :=
  match n with O => EmptyString | S n' => String " " (spaces n') end.

(** ['\n' + indent * level] with [indent = 2] spaces. *)
Definition newline_indent (level : nat) : string :=
  String LF (spaces (2 * level)).

(** [_iterencode] at nesting depth [level]. *)
Fixpoint encode (level : nat) (v : json) {struct v} : string :=
  match v with
  | JNull => "null"
  | JBool true => "true"
  | JBool false => "false"
  | JInt n => pretty n
  | JFloat repr => repr
  | JStr s => encode_basestring s
  | JArr [] => "[]"
  | JArr items =>
      "[" +:+ newline_indent (S level)
      +:+ String.concat ("," +:+ newline_indent (S level))
            (List.map (encode (S level)) items)
      +:+ newline_indent level +:+ "]"
  | JObj [] => "{}"
  | JObj fields =>
      "{" +:+ newline_indent (S level)
      +:+ String.concat ("," +:+ newline_indent (S level))
            (List.map (fun kv => match kv with
                                 | (k, x) => encode_basestring k +:+ ": " +:+ encode (S level) x
                                 end) fields)
      +:+ newline_indent level +:+ "}"
  end.

Definition json_dumps (v : json) : string := encode 0 v.

(** ** Python values: truth, comparison, subscripting, iteration *)

Inductive exn : Type :=
| JSONDecodeError
| AttributeError
| TypeError
| KeyError (key : string)
| OSError (errno : Z) (strerror : string) (filename : string)
| UnicodeDecodeError (byte start stop : nat) (reason : string).

Inductive outcome (A : Type) : Type :=
| Return (a : A)
| Raise (e : exn).
Arguments Return {A} a.
Arguments Raise {A} e.

#[global] Instance outcome_ret : MRet outcome := fun A a => Return a.
#[global] Instance outcome_bind : MBind outcome := fun A B f m =>
  match m with
  | Return a => f a
  | Raise e => Raise e
  end.

(** [if x:] for an [Optional[str]]: [None] and the empty string are false. *)
Definition truthy (x : option string) : bool :=
  match x with
  | None => false
  | Some s => negb (is_empty s)
  end.

(** [v == s] for a loaded value [v] and a [str] [s]. *)
Definition py_eq_str (v : json) (s : string) : bool :=
  match v with
  | JStr s' => String.eqb s' s
  | _ => false
  end.

(** [data.get(k, default)]: only a [dict] has the method. *)
Definition py_get (data : json) (k : string) (default : json) : outcome json :=
  match data with
  | JObj fields => Return (from_option id default (assoc k fields))
  | _ => Raise AttributeError
  end.

(** [v[k]] for a [str] key [k]. *)
Definition py_getitem (v : json) (k : string) : outcome json :=
  match v with
  | JObj fields =>
      match assoc k fields with
      | Some x => Return x
      | None => Raise (KeyError k)
      end
  | _ => Raise TypeError
  end.

(** The elements [for t in v] visits: the items of a list, the keys of a
    dict, the characters of a str (here its bytes: subscripting any of them
    with a key raises, so only whether there is one matters). *)
Definition py_iter (v : json) : outcome (list json) :=
  match v with
  | JArr items => Return items
  | JObj fields => Return (List.map (fun kv => JStr (fst kv)) fields)
  | JStr s => Return (List.map (fun c => JStr (str1 c)) (list_ascii_of_string s))
  | _ => Raise TypeError
  end.

(** [len(v)].  The length of a str is counted in bytes; the code uses it
    only when the str is empty, a non-empty one making the next
    comprehension raise. *)
Definition py_len (v : json) : outcome Z :=
  match v with
  | JArr items => Return (Z.of_nat (length items))
  | JObj fields => Return (Z.of_nat (length fields))
  | JStr s => Return (Z.of_nat (String.length s))
  | _ => Raise TypeError
  end.

(** [repr(s)] of a [str]: between double quotes when [s] holds a single
    quote and no double quote, between single quotes otherwise; the quote
    in use and the backslash are escaped, tab, newline and carriage return
    are written with their letter, the other ASCII control characters as
    [\xhh].  The bytes of non-ASCII characters are copied: those
    characters are taken to be printable. *)
Definition repr_quote (s : string) : ascii :=
  if has_char "'" s && negb (has_char dquote s) then dquote else "'"%char.

Definition repr_char (quote c : ascii) : string :=
  let n := nat_of_ascii c in
  if Ascii.eqb c quote || Ascii.eqb c backslash then String backslash (str1 c)
  else if Nat.eqb n 9 then String backslash "t"
  else if Nat.eqb n 10 then String backslash "n"
  else if Nat.eqb n 13 then String backslash "r"
  else if Nat.ltb n 32 || Nat.eqb n 127 then
    String backslash (String "x" (String (hex_digit (n / 16)) (str1 (hex_digit (n mod 16)))))
  else str1 c.

Fixpoint repr_body (quote : ascii) (s : string) : string :=
  match s with
  | EmptyString => EmptyString
  | String c rest => repr_char quote c +:+ repr_body quote rest
  end.

Definition py_repr (s : string) : string :=
  let quote := repr_quote s in
  String quote (repr_body quote s +:+ str1 quote).

(** [str(e)] for what the one [try] block of the module can catch: an
    [OSError] prints its errno, its text and the [repr] of the file name; a
    [UnicodeDecodeError] names the codec, the byte or the range of
    positions, and the reason.  A [KeyError] prints the [repr] of its key;
    the message texts of the other exceptions are not modelled. *)
Definition exn_str (e : exn) : string :=
  match e with
  | OSError errno strerror filename =>
      "[Errno " +:+ pretty errno +:+ "] " +:+ strerror +:+ ": " +:+ py_repr filename
  | UnicodeDecodeError byte start stop reason =>
      if Nat.eqb stop (S start) then
        "'utf-8' codec can't decode byte 0x"
        +:+ String (hex_digit (byte / 16)) (str1 (hex_digit (byte mod 16)))
        +:+ " in position " +:+ pretty start +:+ ": " +:+ reason
      else
        "'utf-8' codec can't decode bytes in position "
        +:+ pretty start +:+ "-" +:+ pretty (Nat.pred stop) +:+ ": " +:+ reason
  | KeyError k => py_repr k
  | _ => EmptyString
  end.

(** ** The file system and the monad of the tool functions *)

Inductive node : Type :=
| File (text : string)
| Dir.

Abbreviation filesystem := (gmap string node).
Abbreviation environ := (gmap string string).

(** A computation reads and updates the file system and either returns or
    raises. *)
Definition M (A : Type) : Type := filesystem -> filesystem * outcome A.

#[global] Instance M_ret : MRet M := fun A a fs => (fs, Return a).
#[global] Instance M_bind : MBind M := fun A B f m fs =>
  match m fs with
  | (fs', Return a) => f a fs'
  | (fs', Raise e) => (fs', Raise e)
  end.

Definition raise {A : Type} (e : exn) : M A := fun fs => (fs, Raise e).

Definition lift {A : Type} (o : outcome A) : M A := fun fs => (fs, o).

(** [try: body  except Exception as e: handler(e)]. *)
Definition try_except {A : Type} (body : M A) (handler : exn -> M A) : M A :=
  fun fs =>
    match body fs with
    | (fs', Return a) => (fs', Return a)
    | (fs', Raise e) => handler e fs'
    end.

(** [os.getenv(name, default)]. *)
Definition getenv (env : environ) (name default : string) : string :=
  from_option id default (env !! name).

(** [os.path.join(a, b)] of [posixpath]. *)
Definition path_join (a b : string) : string :=
  if starts_with_slash b then b
  else if is_empty a || ends_with_slash a then a +:+ b
  else a +:+ "/" +:+ b.

(** [p[:p.rfind('/') + 1]]. *)
Fixpoint upto_last_slash (p : string) : string :=
  match p with
  | EmptyString => EmptyString
  | String c rest =>
      let r := upto_last_slash rest in
      if negb (is_empty r) then String c r
      else if Ascii.eqb c slash then str1 c
      else EmptyString
  end.

(** [s.rstrip('/')]. *)
Fixpoint rstrip_slash (s : string) : string :=
  match s with
  | EmptyString => EmptyString
  | String c rest =>
      let r := rstrip_slash rest in
      if is_empty r && Ascii.eqb c slash then EmptyString else String c r
  end.

(** [os.path.dirname(p)]: the head is kept as it is when it is empty or
    made of slashes only. *)
Definition dirname (p : string) : string :=
  let head := upto_last_slash p in
  if is_empty (rstrip_slash head) then head else rstrip_slash head.

(** [os.path.exists(p)]. *)
Definition path_exists (p : string) : M bool :=
  fun fs => (fs, Return (bool_decide (is_Some (fs !! p)))).

(** The directories [os.makedirs(p)] visits, outermost first: every prefix
    of [p] that stops in front of a slash (the root and prefixes ending in
    a slash apart), then [p] itself. *)
Fixpoint ancestors_from (pre rest : string) : list string :=
  match rest with
  | EmptyString => [pre]
  | String c rest' =>
      (if Ascii.eqb c slash && negb (is_empty pre) && negb (ends_with_slash pre)
       then [pre] else [])
      ++ ancestors_from (pre +:+ str1 c) rest'
  end.

Definition ancestors (p : string) : list string := ancestors_from EmptyString p.

(** One directory of [os.makedirs(..., exist_ok=True)]: a missing one is
    made, an existing one is accepted.  A regular file in the way stops the
    call: [mkdir] of the path below it, [child], fails with
    [NotADirectoryError]; when the file sits at the last path itself, the
    [FileExistsError] of its own [mkdir] is re-raised. *)
Definition ensure_dir (p : string) (child : option string) : M unit :=
  fun fs =>
    match fs !! p with
    | None => (<[p := Dir]> fs, Return tt)
    | Some Dir => (fs, Return tt)
    | Some (File _) =>
        (fs, Raise match child with
                   | Some c => OSError 20 "Not a directory" c
                   | None => OSError 17 "File exists" p
                   end)
    end.

Fixpoint mkdirs (ps : list string) : M unit :=
  match ps with
  | [] => mret tt
  | p :: rest => ensure_dir p (head rest) ≫= λ _, mkdirs rest
  end.

(** [os.makedirs(p, exist_ok=True)]. *)
Definition makedirs (p : string) : M unit := mkdirs (ancestors p).

(** [with open(p, 'w', encoding='utf-8') as f: f.write(text)]. *)
Definition write_text (p text : string) : M unit :=
  fun fs =>
    match fs !! p with
    | Some Dir => (fs, Raise (OSError 21 "Is a directory" p))
    | _ => (<[p := File text]> fs, Return tt)
    end.

(** Universal newlines, the default of a text-mode [open(p, 'r')]: CR LF
    and a lone CR are read as LF. *)
Fixpoint universal_newlines (s : string) : string :=
  match s with
  | EmptyString => EmptyString
  | String c rest =>
      if Ascii.eqb c CR then
        match rest with
        | String c' rest' =>
            if Ascii.eqb c' LF then String LF (universal_newlines rest')
            else String LF (universal_newlines rest)
        | EmptyString => str1 LF
        end
      else String c (universal_newlines rest)
  end.

(** The bytes [open(p, 'r')] gives access to. *)
Definition read_bytes (p : string) : M string :=
  fun fs =>
    match fs !! p with
    | Some (File bytes) => (fs, Return bytes)
    | Some Dir => (fs, Raise (OSError 21 "Is a directory" p))
    | None => (fs, Raise (OSError 2 "No such file or directory" p))
    end.

(** A continuation byte of UTF-8. *)
Definition is_continuation (b : nat) : bool := Nat.leb 128 b && Nat.ltb b 192.

(** The first place where the strict UTF-8 decoder gives up, as the
    exception it raises there: a byte that cannot start a character
    (0x80-0xC1, 0xF5-0xFF), a byte that cannot continue the one begun
    (with the second bytes that would encode an overlong form, a surrogate
    or a code point above U+10FFFF), or a character cut off by the end of
    the data.  [pos] is the position of the first byte of [s]; the
    positions are those of data decoded in one piece. *)
Fixpoint utf8_fault_from (pos : nat) (s : string) : option exn :=
  match s with
  | EmptyString => None
  | String c0 s1 =>
      let b0 := nat_of_ascii c0 in
      let bad_start := UnicodeDecodeError b0 pos (pos + 1) "invalid start byte" in
      let bad_cont n := UnicodeDecodeError b0 pos (pos + n) "invalid continuation byte" in
      let cut_off n := UnicodeDecodeError b0 pos (pos + n) "unexpected end of data" in
      if Nat.ltb b0 128 then utf8_fault_from (S pos) s1
      else if Nat.ltb b0 194 || Nat.ltb 244 b0 then Some bad_start
      else
        match s1 with
        | EmptyString => Some (cut_off 1%nat)
        | String c1 s2 =>
            let b1 := nat_of_ascii c1 in
            if Nat.ltb b0 224 then
              if is_continuation b1 then utf8_fault_from (pos + 2) s2
              else Some (bad_cont 1%nat)
            else if Nat.ltb b0 240 then
              if negb (is_continuation b1)
                 || (if Nat.ltb b1 160 then Nat.eqb b0 224 else Nat.eqb b0 237)
              then Some (bad_cont 1%nat)
              else
                match s2 with
                | EmptyString => Some (cut_off 2%nat)
                | String c2 s3 =>
                    if is_continuation (nat_of_ascii c2)
                    then utf8_fault_from (pos + 3) s3
                    else Some (bad_cont 2%nat)
                end
            else
              if negb (is_continuation b1)
                 || (if Nat.ltb b1 144 then Nat.eqb b0 240 else Nat.eqb b0 244)
              then Some (bad_cont 1%nat)
              else
                match s2 with
                | EmptyString => Some (cut_off 2%nat)
                | String c2 s3 =>
                    if negb (is_continuation (nat_of_ascii c2)) then Some (bad_cont 2%nat)
                    else
                      match s3 with
                      | EmptyString => Some (cut_off 3%nat)
                      | String c3 s4 =>
                          if is_continuation (nat_of_ascii c3)
                          then utf8_fault_from (pos + 4) s4
                          else Some (bad_cont 3%nat)
                      end
                end
        end
  end.

Definition utf8_fault (bytes : string) : option exn := utf8_fault_from 0 bytes.

(** [with open(p, 'r', encoding='utf-8') as f: f.read()]: the bytes are
    decoded, which fails on the first fault, then the newlines are
    translated. *)
Definition read_text (p : string) : M string :=
  bytes ← read_bytes p;
  match utf8_fault bytes with
  | None => mret (universal_newlines bytes)
  | Some e => raise e
  end.

(** [str.splitlines(keepends=True)] on LF only, which is what
    [f.readlines()] does to the text read. *)
Fixpoint split_lines (s : string) : list string :=
  match s with
  | EmptyString => []
  | String c rest =>
      if Ascii.eqb c LF then str1 c :: split_lines rest
      else match split_lines rest with
           | [] => [str1 c]
           | l :: ls => String c l :: ls
           end
  end.

(** [l[start:]] for a Python list. *)
Definition py_slice_from {A : Type} (start : Z) (l : list A) : list A :=
  let n := Z.of_nat (length l) in
  let i := if start <? 0 then Z.max (n + start) 0 else Z.min start n in
  drop (Z.to_nat i) l.

(** [''.join(l)]. *)
Definition py_join (l : list string) : string := String.concat EmptyString l.

(** ** What a tool returns *)

(** Both tools return a [str].  [JsonText d] is the string
    [json.dumps(d, ensure_ascii=False, indent=2)]; [PlainText s] is a string
    the code returns as it is. *)
Inductive output : Type :=
| JsonText (d : json)
| PlainText (s : string).

Definition render (o : output) : string :=
  match o with
  | JsonText d => json_dumps d
  | PlainText s => s
  end.

(** ** Sample data *)

(** [sample_data] of [task_monitor]. *)
Definition sample_tasks : list json :=
  [ JObj [ ("task_id", JStr "task_001");
           ("task_name", JStr "用户数据同步");
           ("status", JStr "success");
           ("start_time", JStr "2025-06-17 08:00:00");
           ("end_time", JStr "2025-06-17 08:15:30");
           ("duration", JInt 930);
           ("data_count", JInt 1500000);
           ("log_path", JStr "logs/task_001.log");
           ("error_msg", JNull) ];
    JObj [ ("task_id", JStr "task_002");
           ("task_name", JStr "订单数据清洗");
           ("status", JStr "failed");
           ("start_time", JStr "2025-06-17 08:30:00");
           ("end_time", JStr "2025-06-17 08:45:20");
           ("duration", JInt 920);
           ("data_count", JInt 850000);
           ("log_path", JStr "logs/task_002.log");
           ("error_msg", JStr "NullPointerException at DataProcessor.clean()") ];
    JObj [ ("task_id", JStr "task_003");
           ("task_name", JStr "销售报表生成");
           ("status", JStr "running");
           ("start_time", JStr "2025-06-17 09:00:00");
           ("end_time", JNull);
           ("duration", JNull);
           ("data_count", JNull);
           ("log_path", JStr "logs/task_003.log");
           ("error_msg", JNull) ];
    JObj [ ("task_id", JStr "task_004");
           ("task_name", JStr "产品库存校验");
           ("status", JStr "pending");
           ("start_time", JNull);
           ("end_time", JNull);
           ("duration", JNull);
           ("data_count", JNull);
           ("log_path", JStr "logs/task_004.log");
           ("error_msg", JNull) ] ].

Definition sample_data : json := JObj [ ("tasks", JArr sample_tasks) ].

(** [sample_logs] of [task_log_reader]: three transcripts, each line ended
    by a newline. *)
Definition sample_logs : list (string * string) :=
  [ ("task_001",
"[2025-06-17 08:00:00] INFO  Task started: task_001 (用户数据同步)
[2025-06-17 08:00:05] INFO  Connecting to database...
[2025-06-17 08:00:10] INFO  Database connected successfully
[2025-06-17 08:00:15] INFO  Starting data extraction...
[2025-06-17 08:05:00] INFO  Extracted 500000 records
[2025-06-17 08:10:00] INFO  Extracted 1000000 records
[2025-06-17 08:12:00] INFO  Data transformation started
[2025-06-17 08:14:00] INFO  Transformation completed
[2025-06-17 08:15:00] INFO  Loading data to target system...
[2025-06-17 08:15:30] INFO  Task completed successfully. Total records: 1500000
");
    ("task_002",
"[2025-06-17 08:30:00] INFO  Task started: task_002 (订单数据清洗)
[2025-06-17 08:30:05] INFO  Initializing DataProcessor...
[2025-06-17 08:30:10] INFO  Loading order data...
[2025-06-17 08:35:00] INFO  Data loaded: 850000 records
[2025-06-17 08:35:10] INFO  Starting data cleaning...
[2025-06-17 08:40:00] INFO  Cleaning step 1/3 completed
[2025-06-17 08:42:00] ERROR Exception occurred: NullPointerException
[2025-06-17 08:42:00] ERROR   at DataProcessor.clean(DataProcessor.java:245)
[2025-06-17 08:42:00] ERROR   at DataProcessor.run(DataProcessor.java:120)
[2025-06-17 08:42:00] ERROR Task failed due to exception
[2025-06-17 08:45:20] INFO  Task terminated
");
    ("task_003",
"[2025-06-17 09:00:00] INFO  Task started: task_003 (销售报表生成)
[2025-06-17 09:00:05] INFO  Querying sales data from database...
[2025-06-17 09:05:00] INFO  Processing sales data...
[2025-06-17 09:10:00] INFO  Generating report charts...
[2025-06-17 09:12:00] INFO  Task is still running...
") ].

(** ** The loops of [task_monitor] *)

(** [for task in tasks: if task["task_id"] == task_id: return task], with
    [None] when the loop runs to its end. *)
Fixpoint scan_task_id (task_id : string) (tasks : list json) : outcome (option json) :=
  match tasks with
  | [] => Return None
  | task :: rest =>
      v ← py_getitem task "task_id";
      if py_eq_str v task_id then Return (Some task)
      else scan_task_id task_id rest
  end.

(** [[t for t in tasks if t["status"] == status]]. *)
Fixpoint select_status (status : string) (tasks : list json) : outcome (list json) :=
  match tasks with
  | [] => Return []
  | t :: rest =>
      v ← py_getitem t "status";
      sel ← select_status status rest;
      Return (if py_eq_str v status then t :: sel else sel)
  end.

(** [len([t for t in tasks if t["status"] == status])] over a loaded
    value. *)
Definition count_status (status : string) (tasks : json) : outcome Z :=
  items ← py_iter tasks;
  sel ← select_status status items;
  Return (Z.of_nat (length sel)).

(** Source lines 85-124 of [task_monitor]: the answer to a query, once the
    store is loaded.  Nothing here touches the file system. *)
Definition query_tasks (data : json) (task_id status : option string) : outcome output :=
  tasks ← py_get data "tasks" (JArr []);
  if truthy task_id then
    let task_id := default EmptyString task_id in
    items ← py_iter tasks;
    found ← scan_task_id task_id items;
    match found with
    | Some task =>
        Return (JsonText (JObj
          [ ("success", JBool true);
            ("task", task);
            ("message", JStr ("成功获取任务 " +:+ task_id +:+ " 的信息")) ]))
    | None =>
        Return (JsonText (JObj
          [ ("success", JBool false);
            ("message", JStr ("未找到任务ID为 " +:+ task_id +:+ " 的任务")) ]))
    end
  else if truthy status then
    let status := default EmptyString status in
    items ← py_iter tasks;
    filtered_tasks ← select_status status items;
    let n := Z.of_nat (length filtered_tasks) in
    Return (JsonText (JObj
      [ ("success", JBool true);
        ("tasks", JArr filtered_tasks);
        ("count", JInt n);
        ("message", JStr ("筛选出 " +:+ pretty n +:+ " 个状态为 " +:+ status +:+ " 的任务")) ]))
  else
    n ← py_len tasks;
    n_success ← count_status "success" tasks;
    n_failed ← count_status "failed" tasks;
    n_running ← count_status "running" tasks;
    n_pending ← count_status "pending" tasks;
    Return (JsonText (JObj
      [ ("success", JBool true);
        ("tasks", tasks);
        ("count", JInt n);
        ("summary", JObj
          [ ("total", JInt n);
            ("success", JInt n_success);
            ("failed", JInt n_failed);
            ("running", JInt n_running);
            ("pending", JInt n_pending) ]);
        ("message", JStr ("当前共有 " +:+ pretty n +:+ " 个批量任务")) ])).

(** The paths both tools compute from the environment. *)
Definition workspace_path (env : environ) : string :=
  getenv env "COZE_WORKSPACE_PATH" "/workspace/projects".

Definition data_file (env : environ) : string :=
  path_join (workspace_path env) "assets/task_data.json".

Definition logs_dir (env : environ) : string :=
  path_join (workspace_path env) "logs".

Definition log_file (env : environ) (task_id : string) : string :=
  path_join (logs_dir env) (task_id +:+ ".log").

Section Tools.

(** [json.loads]: the text of a document to its value, [None] when the
    text is not a JSON document (the library raises [JSONDecodeError]). *)
Variable json_loads : string -> option json.

(** [with open(p, 'r', encoding='utf-8') as f: json.load(f)].  What the
    file holds goes to [json_loads], which stands for the decoding and the
    parsing together: a file whose bytes do not decode is one more
    document it rejects, and [JSONDecodeError] stands for both failures
    (the [UnicodeDecodeError] and the [JSONDecodeError] of the library are
    both [ValueError]s, and [task_monitor] catches neither). *)
Definition json_load (p : string) : M json :=
  bytes ← read_bytes p;
  match json_loads (universal_newlines bytes) with
  | Some v => mret v
  | None => raise JSONDecodeError
  end.

Definition task_monitor (env : environ) (task_id status : option string) : M output :=
  let data_file := data_file env in
  present ← path_exists data_file;
  (if negb present then
     makedirs (dirname data_file);;
     write_text data_file (json_dumps sample_data)
   else mret tt);;
  data ← json_load data_file;
  lift (query_tasks data task_id status).

(** The [try] block of [task_log_reader] (source lines 188-207). *)
Definition read_log_tail (log_file task_id : string) (lines : Z) : M output :=
  try_except
    (text ← read_text log_file;
     let all_lines := split_lines text in
     let last_lines :=
       if lines <? Z.of_nat (length all_lines)
       then py_slice_from (- lines) all_lines
       else all_lines in
     let n := Z.of_nat (length last_lines) in
     mret (JsonText (JObj
       [ ("success", JBool true);
         ("task_id", JStr task_id);
         ("log_lines", JInt n);
         ("log_content", JStr (py_join last_lines));
         ("message", JStr ("成功读取任务 " +:+ task_id +:+ " 的日志，共 "
                           +:+ pretty n +:+ " 行")) ])))
    (λ e,
     mret (JsonText (JObj
       [ ("success", JBool false);
         ("message", JStr ("读取日志失败: " +:+ exn_str e)) ]))).

Definition task_log_reader (env : environ) (task_id : string) (lines : Z) : M output :=
  let logs_dir := logs_dir env in
  makedirs logs_dir;;
  let log_file := path_join logs_dir (task_id +:+ ".log") in
  present ← path_exists log_file;
  if negb present then
    match assoc task_id sample_logs with
    | Some text =>
        write_text log_file text;;
        read_log_tail log_file task_id lines
    | None =>
        mret (PlainText ("错误：未找到任务 " +:+ task_id +:+ " 的日志文件"))
    end
  else read_log_tail log_file task_id lines.

End Tools.

(** A parser for examples: it reads back the documents of a given list,
    as [json.dumps] prints them, and rejects every other text. *)
Definition loads_among (docs : list json) (text : string) : option json :=
  List.find (λ d, String.eqb (json_dumps d) text) docs.

(** ** Vocabulary of the specification *)

(** The value a record stores under a key, if it is a dictionary that has
    the key. *)
Definition field (k : string) (t : json) : option json :=
  match t with
  | JObj fields => assoc k fields
  | _ => None
  end.

(** A task record carries at least an identifier and a status. *)
Definition is_record (t : json) : Prop :=
  is_Some (field "task_id" t) ∧ is_Some (field "status" t).

(** [data] is a task store whose records are [tasks], in stored order. *)
Definition task_store (data : json) (tasks : list json) : Prop :=
  py_get data "tasks" (JArr []) = Return (JArr tasks) ∧ Forall is_record tasks.

(** The record's identifier, respectively status, is the string [s]. *)
Definition has_id (s : string) (t : json) : bool :=
  match field "task_id" t with
  | Some v => py_eq_str v s
  | None => false
  end.

Definition has_status (s : string) (t : json) : bool :=
  match field "status" t with
  | Some v => py_eq_str v s
  | None => false
  end.

(** The number of records with a given status. *)
Definition status_count (s : string) (tasks : list json) : Z :=
  Z.of_nat (length (List.filter (has_status s) tasks)).

(** A JSON envelope and its [success] flag. *)
Definition envelope (o : output) (flag : bool) : Prop :=
  ∃ fields, o = JsonText (JObj fields) ∧ assoc "success" fields = Some (JBool flag).

(** The three ids that have a sample transcript. *)
Definition sample_ids : list string := List.map fst sample_logs.

(** The summary object of a full listing. *)
Definition summary (tasks : list json) : json :=
  JObj [ ("total", JInt (Z.of_nat (length tasks)));
         ("success", JInt (status_count "success" tasks));
         ("failed", JInt (status_count "failed" tasks));
         ("running", JInt (status_count "running" tasks));
         ("pending", JInt (status_count "pending" tasks)) ].

(** The lines of a log file as [f.readlines()] gives them. *)
Definition log_lines_of (text : string) : list string :=
  split_lines (universal_newlines text).

(** The successful answer of [task_log_reader] that carries the lines
    [last_lines]. *)
Definition log_reply (task_id : string) (last_lines : list string) : output :=
  JsonText (JObj
    [ ("success", JBool true);
      ("task_id", JStr task_id);
      ("log_lines", JInt (Z.of_nat (length last_lines)));
      ("log_content", JStr (py_join last_lines));
      ("message", JStr ("成功读取任务 " +:+ task_id +:+ " 的日志，共 "
                        +:+ pretty (Z.of_nat (length last_lines)) +:+ " 行")) ]).

(** The bare string returned for an id without log file and without
    sample transcript. *)
Definition not_found_text (task_id : string) : string :=
  "错误：未找到任务 " +:+ task_id +:+ " 的日志文件".

(** The last [n] elements of a list, all of them when [n] exceeds the
    length. *)
Definition last_n {A : Type} (n : nat) (l : list A) : list A :=
  drop (length l - n) l.

(** Example inputs: a parser that knows the sample store, and a workspace
    in which the sample store has been written. *)
Definition sample_parser : string -> option json := loads_among [sample_data].

Definition seeded_fs : filesystem :=
  {[ "/workspace/projects/assets/task_data.json" := File (json_dumps sample_data) ]}.

(** A workspace with one three-line log, for a job without sample
    transcript. *)
Definition three_lines : string :=
"started
working
done
".

Definition logged_fs : filesystem :=
  {[ "/workspace" := Dir;
     "/workspace/projects" := Dir;
     "/workspace/projects/logs" := Dir;
     "/workspace/projects/logs/job_7.log" := File three_lines ]}.

(** A regular file sits where [os.makedirs(p)] needs a directory: at [p]
    or at one of the directories that lead to it. *)
Definition blocked (fs : filesystem) (p : string) : Prop :=
  ∃ q t, q ∈ ancestors p ∧ fs !! q = Some (File t).

(** The record's status is one of the four the summary has a bucket
    for. *)
Definition counted_status (t : json) : bool :=
  has_status "success" t || has_status "failed" t
  || has_status "running" t || has_status "pending" t.

(** A loaded value that can be neither iterated nor measured: [None], a
    [bool] or a number. *)
Definition is_scalar (v : json) : bool :=
  match v with
  | JNull | JBool _ | JInt _ | JFloat _ => true
  | _ => false
  end.

(** What subscripting a value that has no such key raises. *)
Definition missing_key_error (k : string) (t : json) : exn :=
  match t with
  | JObj _ => KeyError k
  | _ => TypeError
  end.

(** More example inputs: a workspace whose store file holds the document
    [d], and a parser for a few documents that are not well-formed task
    stores. *)
Definition store_fs (d : json) : filesystem :=
  {[ "/workspace/projects/assets/task_data.json" := File (json_dumps d) ]}.

Definition no_tasks_doc : json := JObj [ ("version", JInt 1) ].

Definition list_doc : json := JArr sample_tasks.

Definition null_tasks_doc : json := JObj [ ("tasks", JNull) ].

(** Two good records, then a number, then a record without keys. *)
Definition ragged_doc : json :=
  JObj [ ("tasks", JArr [ JObj [ ("task_id", JStr "a"); ("status", JStr "success") ];
                          JObj [ ("task_id", JStr "b"); ("status", JStr "archived") ];
                          JInt 7;
                          JObj [ ("name", JStr "c") ] ]) ].

(** Three records, one of them with a status outside the four. *)
Definition archive_tasks : list json :=
  [ JObj [ ("task_id", JStr "a"); ("status", JStr "success") ];
    JObj [ ("task_id", JStr "b"); ("status", JStr "archived") ];
    JObj [ ("task_id", JStr "c"); ("status", JStr "failed") ] ].

Definition archive_doc : json := JObj [ ("tasks", JArr archive_tasks) ].

Definition docs_parser : string -> option json :=
  loads_among [ sample_data; no_tasks_doc; list_doc; null_tasks_doc; ragged_doc;
                archive_doc ].

(** Every byte of [s] is an ASCII character. *)
Fixpoint ascii_only (s : string) : bool :=
  match s with
  | EmptyString => true
  | String c rest => Nat.ltb (nat_of_ascii c) 128 && ascii_only rest
  end.

(** A store in which one record has the empty string as its id. *)
Definition blank_id_tasks : list json :=
  [ JObj [ ("task_id", JStr EmptyString); ("status", JStr "success") ];
    JObj [ ("task_id", JStr "x"); ("status", JStr "failed") ] ].

Definition blank_id_doc : json := JObj [ ("tasks", JArr blank_id_tasks) ].

Definition blank_id_parser : string -> option json := loads_among [ blank_id_doc ].

Section Loading.

Variable json_loads : string -> option json.

(** What the parser makes of a file's text, as [json_load] reads it. *)
Definition parse (text : string) : outcome json :=
  match json_loads (universal_newlines text) with
  | Some v => Return v
  | None => Raise JSONDecodeError
  end.

(** [loads env fs fs' data]: from the file system [fs], [task_monitor]
    gets the store [data] and leaves the file system [fs'].  Either the
    store file is there and parses to [data], or it is missing, the
    directories can be made and the sample written in its place is read
    back as [data]. *)
Inductive loads (env : environ) (fs : filesystem) : filesystem -> json -> Prop :=
| loads_present (text : string) (data : json) :
    fs !! data_file env = Some (File text) ->
    parse text = Return data ->
    loads env fs fs data
| loads_bootstrap (fs1 : filesystem) (data : json) :
    fs !! data_file env = None ->
    makedirs (dirname (data_file env)) fs = (fs1, Return tt) ->
    parse (json_dumps sample_data) = Return data ->
    loads env fs (<[data_file env := File (json_dumps sample_data)]> fs1) data.

End Loading.

(** * Properties *)

#[local] Arguments String.append !_ _ / : simpl nomatch.

(** ** Strings and paths *)

Lemma is_empty_true (s : string) : is_empty s = true <-> s = EmptyString.
Proof. destruct s; simpl; split; congruence. Qed.

Lemma length_app (a b : string) :
  String.length (a +:+ b) = (String.length a + String.length b)%nat.
Proof. induction a as [|c a IH]; simpl; [reflexivity | now rewrite IH]. Qed.

Lemma rstrip_slash_length (s : string) :
  (String.length (rstrip_slash s) <= String.length s)%nat.
Proof.
  induction s as [|c s IH]; simpl; [lia|].
  destruct (is_empty (rstrip_slash s) && Ascii.eqb c slash); simpl; lia.
Qed.

(** The head of a path ends before a last component without slash. *)
Lemma upto_last_slash_length (a b : string) :
  upto_last_slash b = EmptyString ->
  (String.length (upto_last_slash (a +:+ b)) <= String.length a)%nat.
Proof.
  intros Hb. induction a as [|c a IH]; simpl.
  - rewrite Hb. simpl. lia.
  - destruct (is_empty (upto_last_slash (a +:+ b))); simpl; [|lia].
    destruct (Ascii.eqb c slash); simpl; lia.
Qed.

Lemma dirname_length (a b : string) :
  upto_last_slash b = EmptyString ->
  (String.length (dirname (a +:+ b)) <= String.length a)%nat.
Proof.
  intros Hb. unfold dirname.
  pose proof (upto_last_slash_length a b Hb).
  pose proof (rstrip_slash_length (upto_last_slash (a +:+ b))).
  destruct (is_empty _); lia.
Qed.

Lemma ancestors_from_length (pre rest q : string) :
  q ∈ ancestors_from pre rest ->
  (String.length q <= String.length pre + String.length rest)%nat.
Proof.
  revert pre. induction rest as [|c rest IH]; intros pre; simpl.
  - intros ->%list_elem_of_singleton. lia.
  - rewrite elem_of_app. intros [Hq | Hq].
    + destruct (_ && _); [|by apply elem_of_nil in Hq].
      apply list_elem_of_singleton in Hq as ->. lia.
    + apply IH in Hq. rewrite length_app in Hq. simpl in Hq. lia.
Qed.

Lemma ancestors_length (p q : string) :
  q ∈ ancestors p -> (String.length q <= String.length p)%nat.
Proof. intros H. apply ancestors_from_length in H. simpl in H. lia. Qed.

(** The store file is not one of the directories that lead to it. *)
Lemma data_file_not_ancestor (env : environ) :
  data_file env ∉ ancestors (dirname (data_file env)).
Proof.
  intros Hin%ancestors_length.
  assert (Hsplit : ∃ a, data_file env = a +:+ "task_data.json"
                        ∧ (String.length (dirname (a +:+ "task_data.json"))
                           <= String.length a)%nat).
  { unfold data_file, path_join. simpl.
    destruct (is_empty (workspace_path env) || ends_with_slash (workspace_path env)).
    - exists (workspace_path env +:+ "assets/"). split.
      + generalize (workspace_path env) as w.
        induction w as [|c w IH]; simpl; [reflexivity | now rewrite IH].
      + now apply dirname_length.
    - exists (workspace_path env +:+ "/assets/"). split.
      + generalize (workspace_path env) as w.
        induction w as [|c w IH]; simpl; [reflexivity | now rewrite IH].
      + now apply dirname_length. }
  destruct Hsplit as (a & Ha & Hlen).
  rewrite Ha in Hin. rewrite length_app in Hin. simpl in Hin. lia.
Qed.

(** ** The file system *)

Lemma ensure_dir_lookup (p : string) (child : option string) (fs fs1 : filesystem)
    (r : outcome unit) (q : string) :
  ensure_dir p child fs = (fs1, r) ->
  fs1 !! q = fs !! q ∨ (q = p ∧ fs !! q = None ∧ fs1 !! q = Some Dir).
Proof.
  unfold ensure_dir. destruct (fs !! p) as [[t|]|] eqn:Hp; intros [= <- <-]; auto.
  destruct (decide (p = q)) as [->|Hne].
  - right. by rewrite lookup_insert_eq.
  - left. by rewrite lookup_insert_ne.
Qed.

(** [makedirs] only ever adds directories at paths that were free. *)
Lemma mkdirs_lookup (ps : list string) (fs fs1 : filesystem) (r : outcome unit) (q : string) :
  mkdirs ps fs = (fs1, r) ->
  fs1 !! q = fs !! q ∨ (q ∈ ps ∧ fs !! q = None ∧ fs1 !! q = Some Dir).
Proof.
  revert fs. induction ps as [|p ps IH]; intros fs; simpl.
  - intros [= <- <-]. by left.
  - unfold mbind, M_bind.
    destruct (ensure_dir p (head ps) fs) as [fs2 [[]|e]] eqn:Hmk.
    + intros Hrest. apply IH in Hrest.
      apply (ensure_dir_lookup _ _ _ _ _ q) in Hmk.
      destruct Hrest as [Heq | (Hin & Hnone & Hdir)].
      * rewrite Heq. destruct Hmk as [Hmk | (-> & Hnone & Hdir)]; [by left|].
        right. split; [apply list_elem_of_here | done].
      * destruct Hmk as [Hmk | (-> & _ & Hdir')]; [|congruence].
        right. rewrite <- Hmk. split; [by apply list_elem_of_further | done].
    + intros [= <- <-]. apply (ensure_dir_lookup _ _ _ _ _ q) in Hmk.
      destruct Hmk as [Hmk | (-> & Hnone & Hdir)]; [by left|].
      right. split; [apply list_elem_of_here | done].
Qed.

Lemma mkdirs_keeps (ps : list string) (fs fs1 : filesystem) (r : outcome unit) (q : string) (n : node) :
  mkdirs ps fs = (fs1, r) -> fs !! q = Some n -> fs1 !! q = Some n.
Proof.
  intros H Hq. apply (mkdirs_lookup _ _ _ _ q) in H as [H | (_ & H & _)]; congruence.
Qed.

(** Creating the same directories again changes nothing and ends the same
    way. *)
Lemma mkdirs_idem (ps : list string) (fs fs1 : filesystem) (r : outcome unit) :
  mkdirs ps fs = (fs1, r) -> mkdirs ps fs1 = (fs1, r).
Proof.
  revert fs. induction ps as [|p ps IH]; intros fs; simpl.
  - by intros [= <- <-].
  - unfold mbind, M_bind.
    destruct (ensure_dir p (head ps) fs) as [fs2 [[]|e]] eqn:Hmk.
    + intros Hrest. pose proof (IH _ Hrest) as Hagain.
      assert (Hp : fs1 !! p = Some Dir).
      { apply (mkdirs_keeps _ _ _ _ p Dir) in Hrest; [done|].
        unfold ensure_dir in Hmk.
        destruct (fs !! p) as [[t|]|] eqn:Hp; inversion Hmk; subst; [done|].
        by rewrite lookup_insert_eq. }
      unfold ensure_dir at 1. by rewrite Hp.
    + intros [= <- <-]. unfold ensure_dir in *.
      destruct (fs !! p) as [[t|]|] eqn:Hp; inversion Hmk; subst.
      by rewrite Hp.
Qed.

Lemma makedirs_idem (p : string) (fs fs1 : filesystem) (r : outcome unit) :
  makedirs p fs = (fs1, r) -> makedirs p fs1 = (fs1, r).
Proof. apply mkdirs_idem. Qed.

Lemma mkdirs_made (ps : list string) (fs fs1 : filesystem) (q : string) :
  mkdirs ps fs = (fs1, Return tt) -> q ∈ ps -> fs1 !! q = Some Dir.
Proof.
  revert fs. induction ps as [|p ps IH]; intros fs; simpl.
  - intros _ Hin. by apply elem_of_nil in Hin.
  - unfold mbind, M_bind.
    destruct (ensure_dir p (head ps) fs) as [fs2 [[]|e]] eqn:Hmk; [|done].
    intros Hrest [-> | Hin]%elem_of_cons; [|by eapply IH].
    apply (mkdirs_keeps _ _ _ _ p Dir) in Hrest; [done|].
    unfold ensure_dir in Hmk.
    destruct (fs !! p) as [[t|]|] eqn:Hp; inversion Hmk; subst; [done|].
    by rewrite lookup_insert_eq.
Qed.

Lemma mkdirs_all_there (ps : list string) (fs : filesystem) :
  (∀ q, q ∈ ps -> fs !! q = Some Dir) -> mkdirs ps fs = (fs, Return tt).
Proof.
  induction ps as [|p ps IH]; intros Hall; simpl; [reflexivity|].
  unfold mbind, M_bind, ensure_dir.
  rewrite (Hall p) by apply list_elem_of_here.
  apply IH. intros q Hq. apply Hall. by apply list_elem_of_further.
Qed.

(** In the example workspace the log directory is already there. *)
Lemma logged_fs_makedirs : makedirs (logs_dir ∅) logged_fs = (logged_fs, Return tt).
Proof.
  apply mkdirs_all_there. intros q Hq. vm_compute in Hq.
  repeat (apply elem_of_cons in Hq as [-> | Hq]; [reflexivity|]).
  by apply elem_of_nil in Hq.
Qed.


(** ** The load phase of [task_monitor] *)

Section LoadPhase.

Variable json_loads : string -> option json.
Variable env : environ.

Lemma json_load_file (p text : string) (fs : filesystem) :
  fs !! p = Some (File text) ->
  json_load json_loads p fs = (fs, parse json_loads text).
Proof.
  intros Hp. unfold json_load, parse, mbind, M_bind, read_bytes. rewrite Hp.
  by destruct (json_loads _).
Qed.

(** The store file is there: it is parsed, nothing is written. *)
Lemma task_monitor_present (fs : filesystem) (text : string) (task_id status : option string) :
  fs !! data_file env = Some (File text) ->
  task_monitor json_loads env task_id status fs
  = (fs, parse json_loads text ≫= λ data, query_tasks data task_id status).
Proof.
  intros Hp. unfold task_monitor, mbind at 1 2 3, M_bind, path_exists.
  rewrite bool_decide_eq_true_2 by (rewrite Hp; eauto). simpl.
  rewrite (json_load_file _ text) by done.
  by destruct (parse json_loads text).
Qed.

(** A directory sits at the store path: opening it fails. *)
Lemma task_monitor_directory (fs : filesystem) (task_id status : option string) :
  fs !! data_file env = Some Dir ->
  task_monitor json_loads env task_id status fs
  = (fs, Raise (OSError 21 "Is a directory" (data_file env))).
Proof.
  intros Hp. unfold task_monitor, mbind at 1 2 3, M_bind, path_exists.
  rewrite bool_decide_eq_true_2 by (rewrite Hp; eauto). simpl.
  unfold json_load, mbind, M_bind, read_bytes. by rewrite Hp.
Qed.

(** The store file is missing and its directory cannot be made. *)
Lemma task_monitor_blocked (fs fs1 : filesystem) (e : exn) (task_id status : option string) :
  fs !! data_file env = None ->
  makedirs (dirname (data_file env)) fs = (fs1, Raise e) ->
  task_monitor json_loads env task_id status fs = (fs1, Raise e).
Proof.
  intros Hp Hmk. unfold task_monitor, mbind at 1 2 3, M_bind, path_exists.
  rewrite bool_decide_eq_false_2 by (rewrite Hp; by intros [? ?]). simpl.
  unfold mbind, M_bind. by rewrite Hmk.
Qed.

(** The store file is missing: the sample is written and read back. *)
Lemma task_monitor_bootstrap (fs fs1 : filesystem) (task_id status : option string) :
  fs !! data_file env = None ->
  makedirs (dirname (data_file env)) fs = (fs1, Return tt) ->
  task_monitor json_loads env task_id status fs
  = (<[data_file env := File (json_dumps sample_data)]> fs1,
     parse json_loads (json_dumps sample_data) ≫= λ data, query_tasks data task_id status).
Proof.
  intros Hp Hmk.
  assert (Hfree : fs1 !! data_file env = None).
  { destruct (mkdirs_lookup _ _ _ _ (data_file env) Hmk) as [-> | (Hin & _)]; [done|].
    by apply data_file_not_ancestor in Hin. }
  unfold task_monitor, mbind at 1 2 3, M_bind, path_exists.
  rewrite bool_decide_eq_false_2 by (rewrite Hp; by intros [? ?]). simpl.
  unfold mbind at 1. unfold M_bind. rewrite Hmk.
  unfold write_text. rewrite Hfree.
  rewrite (json_load_file _ (json_dumps sample_data)) by apply lookup_insert_eq.
  by destruct (parse json_loads _).
Qed.

Lemma task_monitor_loads (fs fs' : filesystem) (data : json) (task_id status : option string) :
  loads json_loads env fs fs' data ->
  task_monitor json_loads env task_id status fs = (fs', query_tasks data task_id status).
Proof.
  intros [text d Hp Hparse | fs1 d Hp Hmk Hparse].
  - rewrite (task_monitor_present _ text) by done. by rewrite Hparse.
  - rewrite (task_monitor_bootstrap _ fs1) by done. by rewrite Hparse.
Qed.

End LoadPhase.

(** ** The loops *)

Lemma has_id_spec (s : string) (t : json) :
  has_id s t = true <-> field "task_id" t = Some (JStr s).
Proof.
  unfold has_id. destruct (field "task_id" t) as [[]|]; simpl; try (split; congruence).
  rewrite String.eqb_eq. split; congruence.
Qed.

Lemma has_status_spec (s : string) (t : json) :
  has_status s t = true <-> field "status" t = Some (JStr s).
Proof.
  unfold has_status. destruct (field "status" t) as [[]|]; simpl; try (split; congruence).
  rewrite String.eqb_eq. split; congruence.
Qed.

Lemma py_getitem_field (k : string) (t : json) (v : json) :
  field k t = Some v -> py_getitem t k = Return v.
Proof. destruct t; simpl; try discriminate. by intros ->. Qed.

(** The [for] loop returns the first record with the identifier. *)
Lemma scan_task_id_find (task_id : string) (tasks : list json) :
  Forall is_record tasks ->
  scan_task_id task_id tasks = Return (List.find (has_id task_id) tasks).
Proof.
  induction 1 as [|t tasks [[v Hv] _] _ IH]; simpl; [reflexivity|].
  rewrite (py_getitem_field _ _ _ Hv). unfold has_id. rewrite Hv. simpl.
  by destruct (py_eq_str v task_id).
Qed.

(** The comprehension keeps the records with the status, in order. *)
Lemma select_status_filter (status : string) (tasks : list json) :
  Forall is_record tasks ->
  select_status status tasks = Return (List.filter (has_status status) tasks).
Proof.
  induction 1 as [|t tasks [_ [v Hv]] _ IH]; simpl; [reflexivity|].
  rewrite (py_getitem_field _ _ _ Hv), IH. unfold has_status. rewrite Hv. simpl.
  by destruct (py_eq_str v status).
Qed.

Lemma count_status_records (status : string) (tasks : list json) :
  Forall is_record tasks ->
  count_status status (JArr tasks) = Return (status_count status tasks).
Proof. intros H. unfold count_status. simpl. by rewrite (select_status_filter _ _ H). Qed.

Lemma truthy_Some (s : string) : s ≠ EmptyString -> truthy (Some s) = true.
Proof. by destruct s. Qed.

(** What [query_tasks] answers on a store of records, branch by branch. *)
Lemma query_by_id (data : json) (tasks : list json) (task_id : string) (status : option string) :
  task_store data tasks -> task_id ≠ EmptyString ->
  query_tasks data (Some task_id) status =
  Return (JsonText (JObj
    match List.find (has_id task_id) tasks with
    | Some task =>
        [ ("success", JBool true); ("task", task);
          ("message", JStr ("成功获取任务 " +:+ task_id +:+ " 的信息")) ]
    | None =>
        [ ("success", JBool false);
          ("message", JStr ("未找到任务ID为 " +:+ task_id +:+ " 的任务")) ]
    end)).
Proof.
  intros [Hget Hrec] Hne. unfold query_tasks.
  rewrite Hget, (truthy_Some _ Hne). simpl. rewrite (scan_task_id_find _ _ Hrec). simpl.
  by destruct (List.find _ _).
Qed.

Lemma query_by_status (data : json) (tasks : list json) (task_id : option string) (status : string) :
  task_store data tasks -> truthy task_id = false -> status ≠ EmptyString ->
  query_tasks data task_id (Some status) =
  let found := List.filter (has_status status) tasks in
  let n := Z.of_nat (length found) in
  Return (JsonText (JObj
    [ ("success", JBool true); ("tasks", JArr found); ("count", JInt n);
      ("message", JStr ("筛选出 " +:+ pretty n +:+ " 个状态为 " +:+ status +:+ " 的任务")) ])).
Proof.
  intros [Hget Hrec] Hid Hne. unfold query_tasks.
  rewrite Hget, Hid, (truthy_Some _ Hne). simpl. by rewrite (select_status_filter _ _ Hrec).
Qed.

Lemma query_all (data : json) (tasks : list json) (task_id status : option string) :
  task_store data tasks -> truthy task_id = false -> truthy status = false ->
  query_tasks data task_id status =
  let n := Z.of_nat (length tasks) in
  Return (JsonText (JObj
    [ ("success", JBool true); ("tasks", JArr tasks); ("count", JInt n);
      ("summary", summary tasks);
      ("message", JStr ("当前共有 " +:+ pretty n +:+ " 个批量任务")) ])).
Proof.
  intros [Hget Hrec] Hid Hst. unfold query_tasks.
  rewrite Hget, Hid, Hst. simpl. by rewrite !(count_status_records _ _ Hrec).
Qed.

(** ** [task_monitor]: the three kinds of query *)

Lemma seeded_fs_loads : loads sample_parser ∅ seeded_fs seeded_fs sample_data.
Proof. by apply (loads_present _ _ _ (json_dumps sample_data)). Defined.

Lemma sample_store : task_store sample_data sample_tasks.
Proof.
  split; [reflexivity|].
  repeat (constructor; [split; eexists; reflexivity|]). constructor.
Defined.

(** C1 (amended).  For every task store and every non-empty [task_id]
    argument: when the store contains a record with that task_id,
    [task_monitor] returns the JSON object with [success: true], a [task]
    field and a message, where the task is the first record in stored
    order with that id, hence exactly that record when no other record
    shares its id; when the store contains no such record it returns
    [success: false] with a message and no [task] field.  Neither case
    raises. *)
Theorem task_monitor_by_id
    (json_loads : string -> option json) (env : environ) (fs fs' : filesystem)
    (data : json) (tasks : list json) (task_id : string) (status : option string) :
  loads json_loads env fs fs' data ->
  task_store data tasks ->
  task_id ≠ EmptyString ->
  (∀ r, r ∈ tasks -> field "task_id" r = Some (JStr task_id) ->
     ∃ task,
       List.find (has_id task_id) tasks = Some task
       ∧ task ∈ tasks
       ∧ field "task_id" task = Some (JStr task_id)
       ∧ ((∀ r', r' ∈ tasks -> field "task_id" r' = Some (JStr task_id) -> r' = r) -> task = r)
       ∧ task_monitor json_loads env (Some task_id) status fs
         = (fs', Return (JsonText (JObj
              [ ("success", JBool true);
                ("task", task);
                ("message", JStr ("成功获取任务 " +:+ task_id +:+ " 的信息")) ]))))
  ∧ ((∀ r, r ∈ tasks -> field "task_id" r ≠ Some (JStr task_id)) ->
     task_monitor json_loads env (Some task_id) status fs
     = (fs', Return (JsonText (JObj
          [ ("success", JBool false);
            ("message", JStr ("未找到任务ID为 " +:+ task_id +:+ " 的任务")) ])))).
Proof.
  intros Hload Hstore Hne.
  rewrite (task_monitor_loads _ _ _ _ _ _ _ Hload), (query_by_id _ _ _ _ Hstore Hne).
  split.
  - intros r Hin Hid.
    destruct (List.find (has_id task_id) tasks) as [task|] eqn:Hfind.
    + apply find_some in Hfind as [Hin' Hid'%has_id_spec].
      exists task. rewrite <- list_elem_of_In in Hin'. repeat split; auto.
    + apply has_id_spec in Hid. apply list_elem_of_In in Hin.
      rewrite (find_none _ _ Hfind r Hin) in Hid. discriminate.
  - intros Hnone. destruct (List.find (has_id task_id) tasks) as [task|] eqn:Hfind; [|done].
    apply find_some in Hfind as [Hin Hid%has_id_spec].
    exfalso. apply (Hnone task); [by apply list_elem_of_In | done].
Qed.

Lemma task_monitor_by_id_witness :
  loads sample_parser ∅ seeded_fs seeded_fs sample_data
  ∧ task_store sample_data sample_tasks
  ∧ "task_404" ≠ EmptyString
  ∧ task_monitor sample_parser ∅ (Some "task_404") None seeded_fs
    = (seeded_fs, Return (JsonText (JObj
         [ ("success", JBool false);
           ("message", JStr "未找到任务ID为 task_404 的任务") ]))).
Proof.
  assert (Hne : "task_404" ≠ EmptyString) by discriminate.
  split; [apply seeded_fs_loads|]. split; [apply sample_store|]. split; [exact Hne|].
  apply (task_monitor_by_id _ _ _ _ _ _ _ None seeded_fs_loads sample_store Hne).
  intros r Hin. unfold sample_tasks in Hin.
  repeat (apply elem_of_cons in Hin as [-> | Hin]; [discriminate|]).
  by apply elem_of_nil in Hin.
Defined.

(** C1 as stated fails for the empty string: on a fresh workspace no
    record has the task_id [""], yet [task_monitor(task_id="")] answers
    with the full listing and [success: true]. *)
Lemma empty_task_id_not_reported_missing :
  (∀ r, r ∈ sample_tasks -> field "task_id" r ≠ Some (JStr EmptyString))
  ∧ snd (task_monitor sample_parser ∅ (Some EmptyString) None ∅)
    = Return (JsonText (JObj
        [ ("success", JBool true);
          ("tasks", JArr sample_tasks);
          ("count", JInt 4);
          ("summary", summary sample_tasks);
          ("message", JStr "当前共有 4 个批量任务") ]))
  ∧ ¬ envelope (JsonText (JObj
        [ ("success", JBool true);
          ("tasks", JArr sample_tasks);
          ("count", JInt 4);
          ("summary", summary sample_tasks);
          ("message", JStr "当前共有 4 个批量任务") ])) false.
Proof.
  split; [|split].
  - intros r Hin. unfold sample_tasks in Hin.
    repeat (apply elem_of_cons in Hin as [-> | Hin]; [discriminate|]).
    by apply elem_of_nil in Hin.
  - by vm_compute.
  - intros (fields & [= <-] & Hflag). discriminate.
Qed.

(** C3.  For every task store, [task_monitor] called with neither task_id
    nor status returns the full list of records in stored order, a count
    equal to the number of records and a summary that counts the records
    per status value next to the total; on the four-record sample the
    summary is total 4, success 1, failed 1, running 1, pending 1. *)
Theorem task_monitor_lists_all
    (json_loads : string -> option json) (env : environ) (fs fs' : filesystem)
    (data : json) (tasks : list json) :
  loads json_loads env fs fs' data ->
  task_store data tasks ->
  task_monitor json_loads env None None fs
  = (fs', Return (JsonText (JObj
       [ ("success", JBool true);
         ("tasks", JArr tasks);
         ("count", JInt (Z.of_nat (length tasks)));
         ("summary", JObj
           [ ("total", JInt (Z.of_nat (length tasks)));
             ("success", JInt (status_count "success" tasks));
             ("failed", JInt (status_count "failed" tasks));
             ("running", JInt (status_count "running" tasks));
             ("pending", JInt (status_count "pending" tasks)) ]);
         ("message", JStr ("当前共有 " +:+ pretty (Z.of_nat (length tasks))
                           +:+ " 个批量任务")) ])))
  ∧ (tasks = sample_tasks ->
     summary tasks
     = JObj [ ("total", JInt 4); ("success", JInt 1); ("failed", JInt 1);
              ("running", JInt 1); ("pending", JInt 1) ]).
Proof.
  intros Hload Hstore. split.
  - rewrite (task_monitor_loads _ _ _ _ _ _ _ Hload).
    by rewrite (query_all _ _ _ _ Hstore).
  - by intros ->.
Qed.

(** On a fresh workspace the sample store is written first and the listing
    is that of its four records. *)
Lemma task_monitor_lists_all_witness :
  loads sample_parser ∅ ∅
    (<[data_file ∅ := File (json_dumps sample_data)]>
       (fst (makedirs (dirname (data_file ∅)) ∅)))
    sample_data
  ∧ task_store sample_data sample_tasks
  ∧ snd (task_monitor sample_parser ∅ None None ∅)
    = Return (JsonText (JObj
        [ ("success", JBool true);
          ("tasks", JArr sample_tasks);
          ("count", JInt 4);
          ("summary", JObj
            [ ("total", JInt 4); ("success", JInt 1); ("failed", JInt 1);
              ("running", JInt 1); ("pending", JInt 1) ]);
          ("message", JStr "当前共有 4 个批量任务") ])).
Proof.
  assert (Hload : loads sample_parser ∅ ∅
            (<[data_file ∅ := File (json_dumps sample_data)]>
               (fst (makedirs (dirname (data_file ∅)) ∅)))
            sample_data).
  { apply loads_bootstrap; [reflexivity | | by vm_compute].
    assert (Hs : snd (makedirs (dirname (data_file ∅)) ∅) = Return tt) by (by vm_compute).
    destruct (makedirs (dirname (data_file ∅)) ∅) as [made done_]. simpl in *.
    by rewrite Hs. }
  split; [exact Hload|]. split; [apply sample_store|].
  destruct (task_monitor_lists_all _ _ _ _ _ _ Hload sample_store) as [-> _].
  reflexivity.
Defined.

(** C4 (amended).  For every task store and every non-empty status
    argument, with task_id absent or empty, [task_monitor] returns exactly
    the records whose status field is that string (a case-sensitive, exact
    comparison), in stored order, with count equal to their number; a
    status that matches no record gives an empty list and count 0, not an
    error; on the four-record sample, status "failed" gives exactly the
    record task_002. *)
Theorem task_monitor_by_status
    (json_loads : string -> option json) (env : environ) (fs fs' : filesystem)
    (data : json) (tasks : list json) (task_id : option string) (status : string) :
  loads json_loads env fs fs' data ->
  task_store data tasks ->
  truthy task_id = false ->
  status ≠ EmptyString ->
  let found := List.filter (has_status status) tasks in
  task_monitor json_loads env task_id (Some status) fs
  = (fs', Return (JsonText (JObj
       [ ("success", JBool true);
         ("tasks", JArr found);
         ("count", JInt (Z.of_nat (length found)));
         ("message", JStr ("筛选出 " +:+ pretty (Z.of_nat (length found))
                           +:+ " 个状态为 " +:+ status +:+ " 的任务")) ])))
  ∧ (∀ t, t ∈ found <-> t ∈ tasks ∧ field "status" t = Some (JStr status))
  ∧ (tasks = sample_tasks -> status = "failed" ->
     ∃ t, found = [t] ∧ field "task_id" t = Some (JStr "task_002")).
Proof.
  intros Hload Hstore Hid Hne found. split; [|split].
  - rewrite (task_monitor_loads _ _ _ _ _ _ _ Hload).
    by rewrite (query_by_status _ _ _ _ Hstore Hid Hne).
  - intros t. unfold found.
    by rewrite !list_elem_of_In, filter_In, has_status_spec.
  - intros -> ->. eexists. split; reflexivity.
Qed.

Lemma task_monitor_by_status_witness :
  loads sample_parser ∅ seeded_fs seeded_fs sample_data
  ∧ task_store sample_data sample_tasks
  ∧ truthy None = false
  ∧ "failed" ≠ EmptyString
  ∧ ∃ t, snd (task_monitor sample_parser ∅ None (Some "failed") seeded_fs)
         = Return (JsonText (JObj
             [ ("success", JBool true);
               ("tasks", JArr [t]);
               ("count", JInt 1);
               ("message", JStr "筛选出 1 个状态为 failed 的任务") ]))
         ∧ field "task_id" t = Some (JStr "task_002").
Proof.
  assert (Hne : "failed" ≠ EmptyString) by discriminate.
  split; [apply seeded_fs_loads|]. split; [apply sample_store|].
  split; [reflexivity|]. split; [exact Hne|].
  destruct (task_monitor_by_status _ _ _ _ _ _ None "failed"
              seeded_fs_loads sample_store eq_refl Hne) as (Hcall & _ & Hsample).
  destruct (Hsample eq_refl eq_refl) as (t & Hfound & Ht).
  exists t. split; [|exact Ht]. rewrite Hcall, Hfound. reflexivity.
Defined.

(** C4 as stated fails for the empty string: no sample record has the
    status [""], yet [task_monitor(status="")] answers with all four
    records. *)
Lemma empty_status_not_filtered :
  List.filter (has_status EmptyString) sample_tasks = []
  ∧ snd (task_monitor sample_parser ∅ None (Some EmptyString) ∅)
    = Return (JsonText (JObj
        [ ("success", JBool true);
          ("tasks", JArr sample_tasks);
          ("count", JInt 4);
          ("summary", summary sample_tasks);
          ("message", JStr "当前共有 4 个批量任务") ])).
Proof. split; by vm_compute. Qed.

(** C5 (amended).  A non-empty task_id that matches no record is reported
    inline as a JSON object with [success: false]; a non-empty status that
    matches no record is reported as a JSON object with [success: true],
    an empty task list and count 0.  Neither is raised as an exception. *)
Theorem task_monitor_nothing_found
    (json_loads : string -> option json) (env : environ) (fs fs' : filesystem)
    (data : json) (tasks : list json) :
  loads json_loads env fs fs' data ->
  task_store data tasks ->
  (∀ task_id status,
     task_id ≠ EmptyString ->
     List.find (has_id task_id) tasks = None ->
     ∃ o, task_monitor json_loads env (Some task_id) status fs = (fs', Return o)
          ∧ envelope o false)
  ∧ (∀ task_id status,
       truthy task_id = false ->
       status ≠ EmptyString ->
       List.filter (has_status status) tasks = [] ->
       ∃ o, task_monitor json_loads env task_id (Some status) fs = (fs', Return o)
            ∧ envelope o true
            ∧ ¬ envelope o false
            ∧ ∃ message, o = JsonText (JObj
                [ ("success", JBool true); ("tasks", JArr []); ("count", JInt 0);
                  ("message", JStr message) ])).
Proof.
  intros Hload Hstore. split.
  - intros task_id status Hne Hfind.
    rewrite (task_monitor_loads _ _ _ _ _ _ _ Hload), (query_by_id _ _ _ _ Hstore Hne).
    rewrite Hfind. eexists. split; [reflexivity|]. eexists. split; reflexivity.
  - intros task_id status Hid Hne Hfilter.
    rewrite (task_monitor_loads _ _ _ _ _ _ _ Hload).
    rewrite (query_by_status _ _ _ _ Hstore Hid Hne). simpl. rewrite Hfilter. simpl.
    eexists. split; [reflexivity|]. split; [|split].
    + eexists. split; reflexivity.
    + intros (fields & [= <-] & Hflag). discriminate.
    + eexists. reflexivity.
Qed.

Lemma task_monitor_nothing_found_witness :
  loads sample_parser ∅ seeded_fs seeded_fs sample_data
  ∧ task_store sample_data sample_tasks
  ∧ snd (task_monitor sample_parser ∅ (Some "task_404") (Some "failed") seeded_fs)
    = Return (JsonText (JObj
        [ ("success", JBool false);
          ("message", JStr "未找到任务ID为 task_404 的任务") ])).
Proof.
  split; [apply seeded_fs_loads|]. split; [apply sample_store|].
  destruct (task_monitor_nothing_found _ _ _ _ _ _ seeded_fs_loads sample_store)
    as [Hid _].
  assert (Hne : "task_404" ≠ EmptyString) by discriminate.
  destruct (Hid "task_404" (Some "failed") Hne eq_refl) as (o & Hcall & _).
  rewrite Hcall. simpl.
  rewrite (task_monitor_loads _ _ _ _ _ _ _ seeded_fs_loads) in Hcall.
  by injection Hcall as <-.
Defined.

(** C5 as stated fails on the status path: on a fresh workspace the status
    "cancelled" matches no record, and the answer is a JSON object with
    [success: true]. *)
Lemma unmatched_status_reports_success :
  List.filter (has_status "cancelled") sample_tasks = []
  ∧ snd (task_monitor sample_parser ∅ None (Some "cancelled") ∅)
    = Return (JsonText (JObj
        [ ("success", JBool true);
          ("tasks", JArr []);
          ("count", JInt 0);
          ("message", JStr "筛选出 0 个状态为 cancelled 的任务") ]))
  ∧ ¬ envelope (JsonText (JObj
        [ ("success", JBool true);
          ("tasks", JArr []);
          ("count", JInt 0);
          ("message", JStr "筛选出 0 个状态为 cancelled 的任务") ])) false.
Proof.
  split; [by vm_compute|]. split; [by vm_compute|].
  intros (fields & [= <-] & Hflag). discriminate.
Qed.

(** C8.  For every store file whose content is not valid JSON,
    [task_monitor] fails with the parse error: the exception leaves the
    function, whatever the query, and the file system is as it was. *)
Theorem task_monitor_malformed_store
    (json_loads : string -> option json) (env : environ) (fs : filesystem)
    (text : string) (task_id status : option string) :
  fs !! data_file env = Some (File text) ->
  json_loads (universal_newlines text) = None ->
  task_monitor json_loads env task_id status fs = (fs, Raise JSONDecodeError).
Proof.
  intros Hp Hbad. rewrite (task_monitor_present _ _ _ text) by done.
  unfold parse. by rewrite Hbad.
Qed.

Lemma task_monitor_malformed_store_witness :
  let fs : filesystem := {[ "/workspace/projects/assets/task_data.json" := File "{tasks: [" ]} in
  fs !! data_file ∅ = Some (File "{tasks: [")
  ∧ sample_parser (universal_newlines "{tasks: [") = None
  ∧ task_monitor sample_parser ∅ (Some "task_001") None fs = (fs, Raise JSONDecodeError).
Proof.
  intros fs.
  assert (Hp : fs !! data_file ∅ = Some (File "{tasks: [")) by reflexivity.
  assert (Hbad : sample_parser (universal_newlines "{tasks: [") = None) by reflexivity.
  split; [exact Hp|]. split; [exact Hbad|].
  exact (task_monitor_malformed_store _ _ _ _ _ _ Hp Hbad).
Defined.

(** C9.  An empty-string task_id behaves as an absent one: it is not
    compared with any record and the call goes on to the status filter,
    when the status is a non-empty string, or to the full listing; an
    empty-string status behaves as an absent status, the call answering
    the lookup of a non-empty task_id or the full listing. *)
Theorem task_monitor_empty_string_is_absent
    (json_loads : string -> option json) (env : environ) (fs : filesystem)
    (task_id status : option string) :
  (task_monitor json_loads env (Some EmptyString) status fs
   = task_monitor json_loads env None status fs
   ∧ task_monitor json_loads env task_id (Some EmptyString) fs
     = task_monitor json_loads env task_id None fs)
  ∧ (∀ fs' data tasks,
       loads json_loads env fs fs' data ->
       task_store data tasks ->
       let listing :=
         JsonText (JObj
           [ ("success", JBool true);
             ("tasks", JArr tasks);
             ("count", JInt (Z.of_nat (length tasks)));
             ("summary", summary tasks);
             ("message", JStr ("当前共有 " +:+ pretty (Z.of_nat (length tasks))
                               +:+ " 个批量任务")) ]) in
       (∀ st, st ≠ EmptyString ->
          let found := List.filter (has_status st) tasks in
          task_monitor json_loads env (Some EmptyString) (Some st) fs
          = (fs', Return (JsonText (JObj
               [ ("success", JBool true);
                 ("tasks", JArr found);
                 ("count", JInt (Z.of_nat (length found)));
                 ("message", JStr ("筛选出 " +:+ pretty (Z.of_nat (length found))
                                   +:+ " 个状态为 " +:+ st +:+ " 的任务")) ]))))
       ∧ (∀ st, truthy st = false ->
            task_monitor json_loads env (Some EmptyString) st fs = (fs', Return listing))
       ∧ (∀ id, truthy id = false ->
            task_monitor json_loads env id (Some EmptyString) fs = (fs', Return listing))
       ∧ (∀ id, id ≠ EmptyString ->
            task_monitor json_loads env (Some id) (Some EmptyString) fs
            = (fs', Return (JsonText (JObj
                 match List.find (has_id id) tasks with
                 | Some task =>
                     [ ("success", JBool true); ("task", task);
                       ("message", JStr ("成功获取任务 " +:+ id +:+ " 的信息")) ]
                 | None =>
                     [ ("success", JBool false);
                       ("message", JStr ("未找到任务ID为 " +:+ id +:+ " 的任务")) ]
                 end))))).
Proof.
  assert (Hid : ∀ data, query_tasks data (Some EmptyString) status
                        = query_tasks data None status) by reflexivity.
  assert (Hst : ∀ data, query_tasks data task_id (Some EmptyString)
                        = query_tasks data task_id None).
  { intros data. unfold query_tasks. destruct (py_get data "tasks" (JArr [])); [|done].
    simpl. by destruct (truthy task_id). }
  split; [split|].
  - unfold task_monitor, mbind, M_bind.
    destruct (path_exists _ fs) as [fs1 [b|e]]; [|done].
    destruct (_ fs1) as [fs2 [[]|e]]; [|done].
    destruct (json_load _ _ fs2) as [fs3 [data|e]]; [|done].
    unfold lift. by rewrite Hid.
  - unfold task_monitor, mbind, M_bind.
    destruct (path_exists _ fs) as [fs1 [b|e]]; [|done].
    destruct (_ fs1) as [fs2 [[]|e]]; [|done].
    destruct (json_load _ _ fs2) as [fs3 [data|e]]; [|done].
    unfold lift. by rewrite Hst.
  - intros fs' data tasks Hload Hstore listing. split; [|split; [|split]].
    + intros st Hne found. rewrite (task_monitor_loads _ _ _ _ _ _ _ Hload).
      by rewrite (query_by_status _ _ (Some EmptyString) _ Hstore eq_refl Hne).
    + intros st Hfalse. rewrite (task_monitor_loads _ _ _ _ _ _ _ Hload).
      by rewrite (query_all _ _ (Some EmptyString) _ Hstore eq_refl Hfalse).
    + intros id Hfalse. rewrite (task_monitor_loads _ _ _ _ _ _ _ Hload).
      by rewrite (query_all _ _ id (Some EmptyString) Hstore Hfalse eq_refl).
    + intros id Hne. rewrite (task_monitor_loads _ _ _ _ _ _ _ Hload).
      by rewrite (query_by_id _ _ _ _ Hstore Hne).
Qed.

(** A record whose id is the empty string is not what the empty-string
    task_id finds: the answer is the listing of both records. *)
Lemma task_monitor_empty_string_is_absent_witness :
  loads blank_id_parser ∅ (store_fs blank_id_doc) (store_fs blank_id_doc) blank_id_doc
  ∧ task_store blank_id_doc blank_id_tasks
  ∧ List.find (has_id EmptyString) blank_id_tasks
    = Some (JObj [ ("task_id", JStr EmptyString); ("status", JStr "success") ])
  ∧ task_monitor blank_id_parser ∅ (Some EmptyString) None (store_fs blank_id_doc)
    = (store_fs blank_id_doc, Return (JsonText (JObj
         [ ("success", JBool true);
           ("tasks", JArr blank_id_tasks);
           ("count", JInt 2);
           ("summary", JObj
             [ ("total", JInt 2); ("success", JInt 1); ("failed", JInt 1);
               ("running", JInt 0); ("pending", JInt 0) ]);
           ("message", JStr "当前共有 2 个批量任务") ])))
  ∧ task_monitor blank_id_parser ∅ (Some EmptyString) (Some "failed") (store_fs blank_id_doc)
    = (store_fs blank_id_doc, Return (JsonText (JObj
         [ ("success", JBool true);
           ("tasks", JArr [ JObj [ ("task_id", JStr "x"); ("status", JStr "failed") ] ]);
           ("count", JInt 1);
           ("message", JStr "筛选出 1 个状态为 failed 的任务") ]))).
Proof.
  assert (Hload : loads blank_id_parser ∅ (store_fs blank_id_doc) (store_fs blank_id_doc)
                    blank_id_doc).
  { apply (loads_present _ _ _ (json_dumps blank_id_doc)); [reflexivity | by vm_compute]. }
  assert (Hstore : task_store blank_id_doc blank_id_tasks).
  { split; [reflexivity|].
    repeat (constructor; [split; eexists; reflexivity|]). constructor. }
  split; [exact Hload|]. split; [exact Hstore|]. split; [reflexivity|].
  destruct (task_monitor_empty_string_is_absent blank_id_parser ∅ (store_fs blank_id_doc)
              None None) as [_ Hfall].
  destruct (Hfall _ _ _ Hload Hstore) as (Hfilter & Hlist & _ & _).
  split.
  - rewrite (Hlist None eq_refl). reflexivity.
  - assert (Hne : "failed" ≠ EmptyString) by discriminate.
    rewrite (Hfilter "failed" Hne). reflexivity.
Defined.

(** ** Lines and slices *)

Lemma py_join_cons (l : string) (ls : list string) :
  py_join (l :: ls) = l +:+ py_join ls.
Proof.
  unfold py_join. destruct ls as [|l' ls]; simpl.
  - induction l as [|c l IH]; simpl; [reflexivity | by rewrite <- IH].
  - reflexivity.
Qed.

(** Joining the lines gives back the text that was split. *)
Lemma py_join_split_lines (s : string) : py_join (split_lines s) = s.
Proof.
  induction s as [|c s IH]; [reflexivity|]. simpl.
  destruct (Ascii.eqb c LF).
  - by rewrite py_join_cons, IH.
  - destruct (split_lines s) as [|l ls]; [by rewrite <- IH|].
    rewrite py_join_cons in *. simpl. by rewrite IH.
Qed.

(** [l[-n:]] for a positive [n] below the length: the last [n] elements. *)
Lemma py_slice_from_neg {A : Type} (n : Z) (l : list A) :
  0 < n -> n < Z.of_nat (length l) ->
  py_slice_from (- n) l = last_n (Z.to_nat n) l.
Proof.
  intros Hpos Hlt. unfold py_slice_from, last_n.
  rewrite (proj2 (Z.ltb_lt _ _)) by lia. f_equal. lia.
Qed.

(** [l[-0:]] is the whole list. *)
Lemma py_slice_from_zero {A : Type} (l : list A) : py_slice_from (- 0) l = l.
Proof. unfold py_slice_from. simpl. by rewrite Z.min_l by lia. Qed.

(** [l[k:]] for a positive [k]: the list without its first [k] elements. *)
Lemma py_slice_from_pos {A : Type} (k : Z) (l : list A) :
  0 < k -> k < Z.of_nat (length l) ->
  py_slice_from k l = drop (Z.to_nat k) l.
Proof.
  intros Hpos Hlt. unfold py_slice_from.
  rewrite (proj2 (Z.ltb_ge _ _)) by lia. by rewrite Z.min_l by lia.
Qed.

(** ** [task_log_reader] *)

Section LogReader.

Variable env : environ.

(** The [try] block on a regular file: it answers with the lines kept and
    writes nothing. *)
Lemma read_log_tail_file (fs : filesystem) (p text task_id : string) (lines : Z) :
  fs !! p = Some (File text) ->
  utf8_fault text = None ->
  read_log_tail p task_id lines fs
  = (fs, Return (log_reply task_id
       (if lines <? Z.of_nat (length (log_lines_of text))
        then py_slice_from (- lines) (log_lines_of text)
        else log_lines_of text))).
Proof.
  intros Hp Hutf. unfold read_log_tail, try_except, read_text, mbind, M_bind, read_bytes.
  by rewrite Hp, Hutf.
Qed.

(** The [try] block on a file whose bytes are not UTF-8: the decoding
    error is caught and reported. *)
Lemma read_log_tail_undecodable (fs : filesystem) (p bytes task_id : string) (lines : Z)
    (e : exn) :
  fs !! p = Some (File bytes) ->
  utf8_fault bytes = Some e ->
  read_log_tail p task_id lines fs
  = (fs, Return (JsonText (JObj
       [ ("success", JBool false);
         ("message", JStr ("读取日志失败: " +:+ exn_str e)) ]))).
Proof.
  intros Hp Hutf. unfold read_log_tail, try_except, read_text, mbind, M_bind, read_bytes.
  by rewrite Hp, Hutf.
Qed.

(** The [try] block on a directory: the error is caught and reported. *)
Lemma read_log_tail_directory (fs : filesystem) (p task_id : string) (lines : Z) :
  fs !! p = Some Dir ->
  read_log_tail p task_id lines fs
  = (fs, Return (JsonText (JObj
       [ ("success", JBool false);
         ("message", JStr ("读取日志失败: "
                           +:+ exn_str (OSError 21 "Is a directory" p))) ]))).
Proof.
  intros Hp. unfold read_log_tail, try_except, read_text, mbind, M_bind, read_bytes.
  by rewrite Hp.
Qed.

(** The [try] block never raises and never writes. *)
Lemma read_log_tail_total (fs : filesystem) (p task_id : string) (lines : Z) :
  ∃ o flag, read_log_tail p task_id lines fs = (fs, Return o) ∧ envelope o flag.
Proof.
  unfold read_log_tail, try_except, read_text, mbind, M_bind, read_bytes.
  destruct (fs !! p) as [[text|]|]; [destruct (utf8_fault text)| |];
    eexists _, _; (split; [reflexivity|]); eexists; split; reflexivity.
Qed.

Lemma task_log_reader_blocked (fs fs1 : filesystem) (e : exn) (task_id : string) (lines : Z) :
  makedirs (logs_dir env) fs = (fs1, Raise e) ->
  task_log_reader env task_id lines fs = (fs1, Raise e).
Proof. intros Hmk. unfold task_log_reader, mbind, M_bind. by rewrite Hmk. Qed.

(** The log file, or anything else, is at the path: no sample is written. *)
Lemma task_log_reader_present (fs fs1 : filesystem) (n : node) (task_id : string) (lines : Z) :
  makedirs (logs_dir env) fs = (fs1, Return tt) ->
  fs1 !! log_file env task_id = Some n ->
  task_log_reader env task_id lines fs
  = read_log_tail (log_file env task_id) task_id lines fs1.
Proof.
  intros Hmk Hp. unfold task_log_reader, mbind, M_bind. rewrite Hmk.
  unfold path_exists. fold (log_file env task_id).
  by rewrite bool_decide_eq_true_2 by (rewrite Hp; eauto).
Qed.

(** Nothing is at the path and the id has a sample transcript: it is
    written, then read. *)
Lemma task_log_reader_bootstrap (fs fs1 : filesystem) (text task_id : string) (lines : Z) :
  makedirs (logs_dir env) fs = (fs1, Return tt) ->
  fs1 !! log_file env task_id = None ->
  assoc task_id sample_logs = Some text ->
  task_log_reader env task_id lines fs
  = read_log_tail (log_file env task_id) task_id lines
      (<[log_file env task_id := File text]> fs1).
Proof.
  intros Hmk Hp Hsample. unfold task_log_reader, mbind, M_bind. rewrite Hmk.
  unfold path_exists. fold (log_file env task_id).
  rewrite bool_decide_eq_false_2 by (rewrite Hp; by intros [? ?]). cbn [negb].
  rewrite Hsample. unfold write_text. by rewrite Hp.
Qed.

(** Nothing is at the path and the id has no sample transcript. *)
Lemma task_log_reader_unknown (fs fs1 : filesystem) (task_id : string) (lines : Z) :
  makedirs (logs_dir env) fs = (fs1, Return tt) ->
  fs1 !! log_file env task_id = None ->
  assoc task_id sample_logs = None ->
  task_log_reader env task_id lines fs
  = (fs1, Return (PlainText (not_found_text task_id))).
Proof.
  intros Hmk Hp Hsample. unfold task_log_reader, mbind, M_bind. rewrite Hmk.
  unfold path_exists. fold (log_file env task_id).
  rewrite bool_decide_eq_false_2 by (rewrite Hp; by intros [? ?]). cbn [negb].
  by rewrite Hsample.
Qed.

(** An existing log file is read whatever [makedirs] added around it. *)
Lemma task_log_reader_file (fs fs1 : filesystem) (text task_id : string) (lines : Z) :
  makedirs (logs_dir env) fs = (fs1, Return tt) ->
  fs !! log_file env task_id = Some (File text) ->
  utf8_fault text = None ->
  task_log_reader env task_id lines fs
  = (fs1, Return (log_reply task_id
       (if lines <? Z.of_nat (length (log_lines_of text))
        then py_slice_from (- lines) (log_lines_of text)
        else log_lines_of text))).
Proof.
  intros Hmk Hp Hutf.
  pose proof (mkdirs_keeps _ _ _ _ _ _ Hmk Hp) as Hp1.
  rewrite (task_log_reader_present _ _ _ _ _ Hmk Hp1).
  by apply read_log_tail_file.
Qed.

End LogReader.

(** C10 (amended).  For every existing log file whose bytes decode as
    UTF-8, [task_log_reader] called with [lines = 0] returns every line of
    the file, [log_lines] being the total line count; called with a
    negative [lines] whose absolute value is below the line count, it
    returns the file without its first [|lines|] lines (the remaining
    [total - |lines|] lines), not the last [lines] lines. *)
Theorem task_log_reader_nonpositive_lines
    (env : environ) (fs fs1 : filesystem) (text task_id : string) :
  makedirs (logs_dir env) fs = (fs1, Return tt) ->
  fs !! log_file env task_id = Some (File text) ->
  utf8_fault text = None ->
  let all_lines := log_lines_of text in
  let total := Z.of_nat (length all_lines) in
  (task_log_reader env task_id 0 fs
   = (fs1, Return (JsonText (JObj
        [ ("success", JBool true);
          ("task_id", JStr task_id);
          ("log_lines", JInt total);
          ("log_content", JStr (universal_newlines text));
          ("message", JStr ("成功读取任务 " +:+ task_id +:+ " 的日志，共 "
                            +:+ pretty total +:+ " 行")) ]))))
  ∧ (∀ lines, lines < 0 -> - lines < total ->
       task_log_reader env task_id lines fs
       = (fs1, Return (JsonText (JObj
            [ ("success", JBool true);
              ("task_id", JStr task_id);
              ("log_lines", JInt (total + lines));
              ("log_content", JStr (py_join (drop (Z.to_nat (- lines)) all_lines)));
              ("message", JStr ("成功读取任务 " +:+ task_id +:+ " 的日志，共 "
                                +:+ pretty (total + lines) +:+ " 行")) ])))).
Proof.
  intros Hmk Hp Hutf all_lines total. split.
  - rewrite (task_log_reader_file _ _ _ _ _ _ Hmk Hp Hutf). unfold log_reply.
    fold all_lines. rewrite py_slice_from_zero.
    replace (if 0 <? Z.of_nat (length all_lines) then all_lines else all_lines)
      with all_lines by (by destruct (0 <? _)).
    unfold all_lines, log_lines_of. by rewrite py_join_split_lines.
  - intros lines Hneg Hlt.
    rewrite (task_log_reader_file _ _ _ _ _ _ Hmk Hp Hutf). unfold log_reply.
    fold all_lines. fold total. rewrite (proj2 (Z.ltb_lt _ _)) by lia.
    rewrite py_slice_from_pos by (unfold total in Hlt; lia).
    rewrite length_drop.
    replace (Z.of_nat (length all_lines - Z.to_nat (- lines))) with (total + lines)
      by (unfold total in *; lia).
    reflexivity.
Qed.

Lemma task_log_reader_nonpositive_lines_witness :
  makedirs (logs_dir ∅) logged_fs = (logged_fs, Return tt)
  ∧ logged_fs !! log_file ∅ "job_7" = Some (File three_lines)
  ∧ utf8_fault three_lines = None
  ∧ snd (task_log_reader ∅ "job_7" 0 logged_fs)
    = Return (log_reply "job_7" (split_lines three_lines))
  ∧ snd (task_log_reader ∅ "job_7" (-1) logged_fs)
    = Return (log_reply "job_7" (drop 1 (split_lines three_lines))).
Proof.
  pose proof logged_fs_makedirs as Hmk.
  assert (Hp : logged_fs !! log_file ∅ "job_7" = Some (File three_lines)) by reflexivity.
  assert (Hutf : utf8_fault three_lines = None) by reflexivity.
  split; [exact Hmk|]. split; [exact Hp|]. split; [exact Hutf|].
  destruct (task_log_reader_nonpositive_lines _ _ _ _ _ Hmk Hp Hutf) as [Hzero Hneg].
  split.
  - rewrite Hzero. reflexivity.
  - rewrite (Hneg (-1)) by (vm_compute; reflexivity). reflexivity.
Defined.

(** C10 as stated fails for a log file that is not UTF-8: with the single
    byte 0xFF in the file, [task_log_reader(task_id, 0)] returns no line
    but the [success: false] object of the [except] clause. *)
Lemma undecodable_log_not_returned :
  let fs : filesystem :=
    <[ "/workspace/projects/logs/job_7.log" := File (str1 (ascii_of_nat 255)) ]> logged_fs in
  fs !! log_file ∅ "job_7" = Some (File (str1 (ascii_of_nat 255)))
  ∧ snd (task_log_reader ∅ "job_7" 0 fs)
    = Return (JsonText (JObj
        [ ("success", JBool false);
          ("message", JStr "读取日志失败: 'utf-8' codec can't decode byte 0xff in position 0: invalid start byte") ]))
  ∧ ¬ envelope (JsonText (JObj
        [ ("success", JBool false);
          ("message", JStr "读取日志失败: 'utf-8' codec can't decode byte 0xff in position 0: invalid start byte") ]))
        true.
Proof.
  intros fs. split; [reflexivity|]. split; [by vm_compute|].
  intros (fields & [= <-] & Hflag). discriminate.
Qed.

Lemma assoc_None {A : Type} (k : string) (kvs : list (string * A)) :
  k ∉ List.map fst kvs -> assoc k kvs = None.
Proof.
  induction kvs as [|[k' v] kvs IH]; simpl; [done|].
  rewrite not_elem_of_cons. intros [Hne Hnot].
  destruct (String.eqb_spec k k'); [done | auto].
Qed.

(** The text of a JSON object opens with a brace. *)
Lemma json_dumps_object_head (fields : list (string * json)) :
  ∃ rest, json_dumps (JObj fields) = String "{" rest.
Proof. destruct fields; unfold json_dumps; simpl; eauto. Qed.

(** Every answer of [query_tasks] is a JSON envelope. *)
Lemma query_tasks_envelope (data : json) (task_id status : option string) (o : output) :
  query_tasks data task_id status = Return o -> ∃ flag, envelope o flag.
Proof.
  unfold query_tasks, mbind, outcome_bind. intros H.
  repeat case_match; simplify_eq; eexists; eexists; split; reflexivity.
Qed.

(** Every answer of [task_monitor] comes from [query_tasks]. *)
Lemma task_monitor_returns
    (json_loads : string -> option json) (env : environ) (fs fs' : filesystem)
    (task_id status : option string) (o : output) :
  task_monitor json_loads env task_id status fs = (fs', Return o) ->
  ∃ data, query_tasks data task_id status = Return o.
Proof.
  unfold task_monitor, mbind, M_bind.
  destruct (path_exists _ fs) as [fs1 [b|e]]; [|done].
  destruct (_ fs1) as [fs2 [[]|e]]; [|done].
  destruct (json_load _ _ fs2) as [fs3 [data|e]]; [|done].
  unfold lift. intros [= <- H]. eauto.
Qed.

(** Every answer of [task_log_reader] is a JSON envelope, the bare
    not-found string apart. *)
Lemma task_log_reader_returns
    (env : environ) (fs fs' : filesystem) (task_id : string) (lines : Z) (o : output) :
  task_log_reader env task_id lines fs = (fs', Return o) ->
  (∃ flag, envelope o flag) ∨ o = PlainText (not_found_text task_id).
Proof.
  unfold task_log_reader, mbind, M_bind.
  destruct (makedirs _ fs) as [fs1 [[]|e]]; [|done].
  unfold path_exists. destruct (negb _).
  - destruct (assoc task_id sample_logs) as [text|].
    + destruct (write_text _ text fs1) as [fs2 [[]|e]]; [|done].
      destruct (read_log_tail_total fs2 (path_join (logs_dir env) (task_id +:+ ".log"))
                  task_id lines) as (o' & flag & -> & Henv).
      intros [= <- <-]. eauto.
    + intros [= <- <-]. by right.
  - destruct (read_log_tail_total fs1 (path_join (logs_dir env) (task_id +:+ ".log"))
                task_id lines) as (o' & flag & -> & Henv).
    intros [= <- <-]. eauto.
Qed.

(** C6.  For every task_id that is none of the three sample ids and whose
    log file does not exist, [task_log_reader] returns a bare error
    string: not the text of a JSON object, and so not a [success: false]
    envelope, which is what every other returning path of the two tools
    produces. *)
Theorem task_log_reader_unknown_id
    (env : environ) (fs fs1 : filesystem) (task_id : string) (lines : Z) :
  makedirs (logs_dir env) fs = (fs1, Return tt) ->
  fs1 !! log_file env task_id = None ->
  task_id ∉ ["task_001"; "task_002"; "task_003"] ->
  task_log_reader env task_id lines fs
  = (fs1, Return (PlainText ("错误：未找到任务 " +:+ task_id +:+ " 的日志文件")))
  ∧ (∀ fields, render (PlainText ("错误：未找到任务 " +:+ task_id +:+ " 的日志文件"))
               ≠ json_dumps (JObj fields))
  ∧ (∀ json_loads env' fs0 fs' task_id' status o,
       task_monitor json_loads env' task_id' status fs0 = (fs', Return o) ->
       ∃ flag, envelope o flag)
  ∧ (∀ env' fs0 fs' task_id' lines' o,
       task_log_reader env' task_id' lines' fs0 = (fs', Return o) ->
       (∃ flag, envelope o flag)
       ∨ o = PlainText ("错误：未找到任务 " +:+ task_id' +:+ " 的日志文件")).
Proof.
  intros Hmk Hp Hid. split; [|split; [|split]].
  - apply task_log_reader_unknown; [done | done |]. by apply assoc_None.
  - intros fields Heq. destruct (json_dumps_object_head fields) as [rest Hrest].
    rewrite Hrest in Heq. simpl in Heq. discriminate.
  - intros json_loads env' fs0 fs' task_id' status o Hcall.
    apply task_monitor_returns in Hcall as [data Hq].
    by apply query_tasks_envelope in Hq.
  - intros env' fs0 fs' task_id' lines' o Hcall.
    by apply task_log_reader_returns in Hcall.
Qed.

Lemma task_log_reader_unknown_id_witness :
  makedirs (logs_dir ∅) logged_fs = (logged_fs, Return tt)
  ∧ logged_fs !! log_file ∅ "job_8" = None
  ∧ ("job_8" ∉ ["task_001"; "task_002"; "task_003"])
  ∧ (task_log_reader ∅ "job_8" 100 logged_fs
     = (logged_fs, Return (PlainText "错误：未找到任务 job_8 的日志文件"))).
Proof.
  pose proof logged_fs_makedirs as Hmk.
  assert (Hp : logged_fs !! log_file ∅ "job_8" = None) by reflexivity.
  assert (Hid : "job_8" ∉ ["task_001"; "task_002"; "task_003"]).
  { intros Hin. repeat (apply elem_of_cons in Hin as [Hin | Hin]; [discriminate|]).
    by apply elem_of_nil in Hin. }
  split; [exact Hmk|]. split; [exact Hp|]. split; [exact Hid|].
  apply (task_log_reader_unknown_id _ _ _ _ 100 Hmk Hp Hid).
Defined.

(** For a positive [lines] the answer carries the last [lines] lines of a
    file that decodes, in order, all of them when [lines] reaches the line
    count. *)
Lemma task_log_reader_positive_lines
    (env : environ) (fs fs1 : filesystem) (text task_id : string) (lines : Z) :
  makedirs (logs_dir env) fs = (fs1, Return tt) ->
  fs !! log_file env task_id = Some (File text) ->
  utf8_fault text = None ->
  0 < lines ->
  task_log_reader env task_id lines fs
  = (fs1, Return (log_reply task_id (last_n (Z.to_nat lines) (log_lines_of text)))).
Proof.
  intros Hmk Hp Hutf Hpos. rewrite (task_log_reader_file _ _ _ _ _ _ Hmk Hp Hutf).
  destruct (Z.ltb_spec lines (Z.of_nat (length (log_lines_of text)))) as [Hlt | Hge].
  - by rewrite py_slice_from_neg.
  - unfold last_n.
    replace (length (log_lines_of text) - Z.to_nat lines)%nat with 0%nat by lia.
    reflexivity.
Qed.

(** C2 (the code departs from it at [lines = 0]).  The claim asks for the
    last [lines] lines of the file for every [lines]; the last 0 lines of
    the ten-line sample transcript of task_001 are no lines at all, but
    [task_log_reader("task_001", 0)] on a fresh workspace returns all ten
    lines with [log_lines = 10]. *)
Theorem task_log_reader_zero_lines_sample :
  ∃ text,
    assoc "task_001" sample_logs = Some text
    ∧ length (log_lines_of text) = 10%nat
    ∧ last_n 0 (log_lines_of text) = []
    ∧ snd (task_log_reader ∅ "task_001" 0 ∅)
      = Return (JsonText (JObj
          [ ("success", JBool true);
            ("task_id", JStr "task_001");
            ("log_lines", JInt 10);
            ("log_content", JStr text);
            ("message", JStr "成功读取任务 task_001 的日志，共 10 行") ])).
Proof. eexists. split; [reflexivity|]. repeat split; by vm_compute. Qed.

(** ** A second call *)

Section SecondCall.

Variable json_loads : string -> option json.
Variable env : environ.

(** What a first call of [task_monitor] leaves behind: the same file
    system with, at most, new directories and the sample store added; a
    later call, whatever its arguments, finds that state and keeps it. *)
Lemma task_monitor_again (fs fs1 : filesystem) (r1 : outcome output)
    (task_id status : option string) :
  task_monitor json_loads env task_id status fs = (fs1, r1) ->
  task_monitor json_loads env task_id status fs1 = (fs1, r1)
  ∧ (∀ task_id' status', fst (task_monitor json_loads env task_id' status' fs1) = fs1)
  ∧ (∀ q n, fs !! q = Some n -> fs1 !! q = Some n)
  ∧ (∀ o, r1 = Return o ->
       ∃ text, fs1 !! data_file env = Some (File text)
               ∧ (fs !! data_file env = None -> text = json_dumps sample_data)).
Proof.
  destruct (fs !! data_file env) as [[text|]|] eqn:Hp.
  - rewrite (task_monitor_present _ _ _ text) by done. intros [= <- <-].
    split; [by apply task_monitor_present|]. split; [|split].
    + intros task_id' status'. by rewrite (task_monitor_present _ _ _ text).
    + done.
    + intros o _. exists text. by rewrite Hp.
  - rewrite task_monitor_directory by done. intros [= <- <-].
    split; [by apply task_monitor_directory|]. split; [|split].
    + intros task_id' status'. by rewrite task_monitor_directory.
    + done.
    + done.
  - destruct (makedirs (dirname (data_file env)) fs) as [fs2 [[]|e]] eqn:Hmk.
    + rewrite (task_monitor_bootstrap _ _ _ fs2) by done. intros [= <- <-].
      assert (Hnew : <[data_file env := File (json_dumps sample_data)]> fs2
                     !! data_file env = Some (File (json_dumps sample_data)))
        by apply lookup_insert_eq.
      split; [by apply task_monitor_present|]. split; [|split].
      * intros task_id' status'. by rewrite (task_monitor_present _ _ _ _ _ _ Hnew).
      * intros q n Hq. rewrite lookup_insert_ne by congruence.
        by apply (mkdirs_keeps _ _ _ _ _ _ Hmk).
      * intros o _. by exists (json_dumps sample_data).
    + rewrite (task_monitor_blocked _ _ _ fs2 e) by done. intros [= <- <-].
      assert (Hfree : fs2 !! data_file env = None).
      { destruct (mkdirs_lookup _ _ _ _ (data_file env) Hmk) as [-> | (Hin & _)]; [done|].
        by apply data_file_not_ancestor in Hin. }
      pose proof (makedirs_idem _ _ _ _ Hmk) as Hmk'.
      split; [by apply task_monitor_blocked|]. split; [|split].
      * intros task_id' status'. by rewrite (task_monitor_blocked _ _ _ fs2 e).
      * intros q n Hq. by apply (mkdirs_keeps _ _ _ _ _ _ Hmk).
      * done.
Qed.

(** The same for [task_log_reader]. *)
Lemma task_log_reader_again (fs fs1 : filesystem) (r1 : outcome output)
    (task_id : string) (lines : Z) :
  task_log_reader env task_id lines fs = (fs1, r1) ->
  task_log_reader env task_id lines fs1 = (fs1, r1)
  ∧ (∀ lines', fst (task_log_reader env task_id lines' fs1) = fs1)
  ∧ (∀ q n, fs !! q = Some n -> fs1 !! q = Some n)
  ∧ (∀ d, r1 = Return (JsonText d) -> is_Some (fs1 !! log_file env task_id)).
Proof.
  destruct (makedirs (logs_dir env) fs) as [fs2 [[]|e]] eqn:Hmk.
  - pose proof (makedirs_idem _ _ _ _ Hmk) as Hmk'.
    destruct (fs2 !! log_file env task_id) as [n|] eqn:Hp.
    + rewrite (task_log_reader_present _ _ _ _ _ _ Hmk Hp).
      destruct (read_log_tail_total fs2 (log_file env task_id) task_id lines)
        as (o & flag & Hread & _).
      rewrite Hread. intros [= <- <-]. split; [|split; [|split]].
      * by rewrite (task_log_reader_present _ _ _ _ _ _ Hmk' Hp).
      * intros lines'. rewrite (task_log_reader_present _ _ _ _ _ _ Hmk' Hp).
        by destruct (read_log_tail_total fs2 (log_file env task_id) task_id lines')
          as (o' & flag' & -> & _).
      * intros q m Hq. by apply (mkdirs_keeps _ _ _ _ _ _ Hmk).
      * intros d _. by rewrite Hp.
    + destruct (assoc task_id sample_logs) as [text|] eqn:Hsample.
      * rewrite (task_log_reader_bootstrap _ _ _ _ _ _ Hmk Hp Hsample).
        set (fs3 := <[log_file env task_id := File text]> fs2).
        assert (Hnew : fs3 !! log_file env task_id = Some (File text))
          by apply lookup_insert_eq.
        assert (Hmk3 : makedirs (logs_dir env) fs3 = (fs3, Return tt)).
        { apply mkdirs_all_there. intros q Hq.
          pose proof (mkdirs_made _ _ _ _ Hmk Hq) as Hdir.
          unfold fs3. rewrite lookup_insert_ne by congruence. done. }
        destruct (read_log_tail_total fs3 (log_file env task_id) task_id lines)
          as (o & flag & Hread & _).
        rewrite Hread. intros [= <- <-].
        split; [|split; [|split]].
        -- by rewrite (task_log_reader_present _ _ _ _ _ _ Hmk3 Hnew).
        -- intros lines'. rewrite (task_log_reader_present _ _ _ _ _ _ Hmk3 Hnew).
           by destruct (read_log_tail_total fs3 (log_file env task_id) task_id lines')
             as (o' & flag' & -> & _).
        -- intros q m Hq. pose proof (mkdirs_keeps _ _ _ _ _ _ Hmk Hq) as Hq2.
           unfold fs3. by rewrite lookup_insert_ne by congruence.
        -- intros d _. by rewrite Hnew.
      * rewrite (task_log_reader_unknown _ _ _ _ _ Hmk Hp Hsample). intros [= <- <-].
        split; [|split; [|split]].
        -- by apply task_log_reader_unknown.
        -- intros lines'. by rewrite (task_log_reader_unknown _ _ _ _ _ Hmk' Hp Hsample).
        -- intros q m Hq. by apply (mkdirs_keeps _ _ _ _ _ _ Hmk).
        -- done.
  - rewrite (task_log_reader_blocked _ _ _ _ _ _ Hmk). intros [= <- <-].
    pose proof (makedirs_idem _ _ _ _ Hmk) as Hmk'.
    split; [by apply task_log_reader_blocked|]. split; [|split].
    + intros lines'. by rewrite (task_log_reader_blocked _ _ _ _ _ _ Hmk').
    + intros q m Hq. by apply (mkdirs_keeps _ _ _ _ _ _ Hmk).
    + done.
Qed.

End SecondCall.

(** C7.  Bootstrap is idempotent and reading has no other side effect.
    After a first call of either tool, a second call in succession finds
    the store file (respectively the log file) present when the first
    call answered, leaves the whole file system as the first call left it,
    whatever its arguments, and with the same arguments returns the same
    result.  The first call itself only adds what was missing: every path
    that existed keeps its node, and a store file written by the
    bootstrap holds the sample data. *)
Theorem second_call_changes_nothing
    (json_loads : string -> option json) (env : environ)
    (fs fs1 fs2 : filesystem) (r1 r2 : outcome output)
    (task_id status : option string) (log_id : string) (lines : Z) :
  task_monitor json_loads env task_id status fs = (fs1, r1) ->
  task_log_reader env log_id lines fs = (fs2, r2) ->
  (task_monitor json_loads env task_id status fs1 = (fs1, r1)
   ∧ (∀ task_id' status', fst (task_monitor json_loads env task_id' status' fs1) = fs1)
   ∧ (∀ q n, fs !! q = Some n -> fs1 !! q = Some n)
   ∧ (∀ o, r1 = Return o ->
        ∃ text, fs1 !! data_file env = Some (File text)
                ∧ (fs !! data_file env = None -> text = json_dumps sample_data)))
  ∧ (task_log_reader env log_id lines fs2 = (fs2, r2)
     ∧ (∀ lines', fst (task_log_reader env log_id lines' fs2) = fs2)
     ∧ (∀ q n, fs !! q = Some n -> fs2 !! q = Some n)
     ∧ (∀ d, r2 = Return (JsonText d) -> is_Some (fs2 !! log_file env log_id))).
Proof.
  intros Hmonitor Hreader. split.
  - by apply task_monitor_again.
  - by apply task_log_reader_again.
Qed.

Lemma second_call_changes_nothing_witness :
  let first := task_monitor sample_parser ∅ (Some "task_002") None ∅ in
  let first_log := task_log_reader ∅ "task_001" 3 ∅ in
  task_monitor sample_parser ∅ (Some "task_002") None ∅ = (fst first, snd first)
  ∧ task_log_reader ∅ "task_001" 3 ∅ = (fst first_log, snd first_log)
  ∧ task_monitor sample_parser ∅ (Some "task_002") None (fst first)
    = (fst first, snd first)
  ∧ task_log_reader ∅ "task_001" 3 (fst first_log) = (fst first_log, snd first_log)
  ∧ fst first !! data_file ∅ = Some (File (json_dumps sample_data))
  ∧ is_Some (fst first_log !! log_file ∅ "task_001").
Proof.
  intros first first_log.
  assert (H1 : task_monitor sample_parser ∅ (Some "task_002") None ∅
               = (fst first, snd first))
    by (subst first; by destruct (task_monitor _ _ _ _ _)).
  assert (H2 : task_log_reader ∅ "task_001" 3 ∅ = (fst first_log, snd first_log))
    by (subst first_log; by destruct (task_log_reader _ _ _ _)).
  split; [exact H1|]. split; [exact H2|].
  destruct (second_call_changes_nothing _ _ _ _ _ _ _ _ _ _ _ H1 H2)
    as [(Hm & _ & _ & Hstore) (Hl & _ & _ & Hlog)].
  split; [exact Hm|]. split; [exact Hl|]. split.
  - by vm_compute.
  - eapply Hlog. by vm_compute.
Defined.

(** * Further properties of the two tools *)

(** ** [task_monitor]: precedence, malformed stores, counts *)

(** Two queries that [query_tasks] cannot tell apart get the same answer
    from [task_monitor], on every file system. *)
Lemma task_monitor_query_ext
    (json_loads : string -> option json) (env : environ) (fs : filesystem)
    (task_id task_id' status status' : option string) :
  (∀ data, query_tasks data task_id status = query_tasks data task_id' status') ->
  task_monitor json_loads env task_id status fs
  = task_monitor json_loads env task_id' status' fs.
Proof.
  intros Hq. unfold task_monitor, mbind, M_bind.
  destruct (path_exists _ fs) as [fs1 [b|e]]; [|done].
  destruct (_ fs1) as [fs2 [[]|e]]; [|done].
  destruct (json_load _ _ fs2) as [fs3 [data|e]]; [|done].
  unfold lift. by rewrite Hq.
Qed.

(** X1.  A non-empty task_id takes precedence: the status argument is
    not looked at, whatever the store file holds. *)
Theorem task_id_takes_precedence
    (json_loads : string -> option json) (env : environ) (fs : filesystem)
    (task_id : string) (status status' : option string) :
  task_id ≠ EmptyString ->
  task_monitor json_loads env (Some task_id) status fs
  = task_monitor json_loads env (Some task_id) status' fs.
Proof.
  intros Hne. apply task_monitor_query_ext. intros data. unfold query_tasks.
  by rewrite (truthy_Some _ Hne).
Qed.

Lemma task_id_takes_precedence_witness :
  "task_003" ≠ EmptyString
  ∧ task_monitor sample_parser ∅ (Some "task_003") (Some "failed") seeded_fs
    = task_monitor sample_parser ∅ (Some "task_003") None seeded_fs.
Proof.
  assert (Hne : "task_003" ≠ EmptyString) by discriminate.
  split; [exact Hne|].
  exact (task_id_takes_precedence sample_parser ∅ seeded_fs _ (Some "failed") None Hne).
Defined.

(** X2.  A store object without the "tasks" key is an empty store: the
    listing has count 0 and an all-zero summary, a status filter selects
    nothing and every lookup is reported as not found. *)
Theorem task_monitor_missing_tasks_key
    (json_loads : string -> option json) (env : environ) (fs fs' : filesystem)
    (fields : list (string * json)) :
  loads json_loads env fs fs' (JObj fields) ->
  assoc "tasks" fields = None ->
  task_monitor json_loads env None None fs
  = (fs', Return (JsonText (JObj
       [ ("success", JBool true); ("tasks", JArr []); ("count", JInt 0);
         ("summary", JObj
           [ ("total", JInt 0); ("success", JInt 0); ("failed", JInt 0);
             ("running", JInt 0); ("pending", JInt 0) ]);
         ("message", JStr "当前共有 0 个批量任务") ])))
  ∧ (∀ status, status ≠ EmptyString ->
       task_monitor json_loads env None (Some status) fs
       = (fs', Return (JsonText (JObj
            [ ("success", JBool true); ("tasks", JArr []); ("count", JInt 0);
              ("message", JStr ("筛选出 0 个状态为 " +:+ status +:+ " 的任务")) ]))))
  ∧ (∀ task_id status, task_id ≠ EmptyString ->
       task_monitor json_loads env (Some task_id) status fs
       = (fs', Return (JsonText (JObj
            [ ("success", JBool false);
              ("message", JStr ("未找到任务ID为 " +:+ task_id +:+ " 的任务")) ])))).
Proof.
  intros Hload Hkey.
  assert (Hstore : task_store (JObj fields) []).
  { split; [|constructor]. simpl. by rewrite Hkey. }
  split; [|split].
  - rewrite (task_monitor_loads _ _ _ _ _ _ _ Hload).
    by rewrite (query_all _ _ _ _ Hstore).
  - intros status Hne. rewrite (task_monitor_loads _ _ _ _ _ _ _ Hload).
    by rewrite (query_by_status _ _ None _ Hstore eq_refl Hne).
  - intros task_id status Hne. rewrite (task_monitor_loads _ _ _ _ _ _ _ Hload).
    by rewrite (query_by_id _ _ _ _ Hstore Hne).
Qed.

Lemma task_monitor_missing_tasks_key_witness :
  loads docs_parser ∅ (store_fs no_tasks_doc) (store_fs no_tasks_doc) no_tasks_doc
  ∧ assoc "tasks" [ ("version", JInt 1) ] = None
  ∧ task_monitor docs_parser ∅ (Some "task_001") None (store_fs no_tasks_doc)
    = (store_fs no_tasks_doc, Return (JsonText (JObj
         [ ("success", JBool false);
           ("message", JStr "未找到任务ID为 task_001 的任务") ]))).
Proof.
  assert (Hload : loads docs_parser ∅ (store_fs no_tasks_doc) (store_fs no_tasks_doc)
                    no_tasks_doc)
    by (by apply (loads_present _ _ _ (json_dumps no_tasks_doc))).
  split; [exact Hload|]. split; [reflexivity|].
  destruct (task_monitor_missing_tasks_key _ _ _ _ _ Hload eq_refl) as (_ & _ & Hid).
  apply (Hid "task_001" None). discriminate.
Defined.

(** X3.  A store file whose document is not an object (a list of records,
    say) makes every query fail with the [AttributeError] of
    [data.get]. *)
Theorem task_monitor_store_not_object
    (json_loads : string -> option json) (env : environ) (fs fs' : filesystem)
    (data : json) (task_id status : option string) :
  loads json_loads env fs fs' data ->
  (∀ fields, data ≠ JObj fields) ->
  task_monitor json_loads env task_id status fs = (fs', Raise AttributeError).
Proof.
  intros Hload Hnot. rewrite (task_monitor_loads _ _ _ _ _ _ _ Hload).
  destruct data; try reflexivity. by destruct (Hnot fields).
Qed.

Lemma task_monitor_store_not_object_witness :
  loads docs_parser ∅ (store_fs list_doc) (store_fs list_doc) list_doc
  ∧ (∀ fields, list_doc ≠ JObj fields)
  ∧ task_monitor docs_parser ∅ None None (store_fs list_doc)
    = (store_fs list_doc, Raise AttributeError).
Proof.
  assert (Hload : loads docs_parser ∅ (store_fs list_doc) (store_fs list_doc) list_doc)
    by (by apply (loads_present _ _ _ (json_dumps list_doc))).
  assert (Hnot : ∀ fields, list_doc ≠ JObj fields) by (intros fields; discriminate).
  split; [exact Hload|]. split; [exact Hnot|].
  exact (task_monitor_store_not_object _ _ _ _ _ None None Hload Hnot).
Defined.

(** X4.  When the "tasks" entry is [null], a boolean or a number, every
    query fails with a [TypeError]: the value can be neither iterated nor
    measured. *)
Theorem task_monitor_tasks_scalar
    (json_loads : string -> option json) (env : environ) (fs fs' : filesystem)
    (fields : list (string * json)) (v : json) (task_id status : option string) :
  loads json_loads env fs fs' (JObj fields) ->
  assoc "tasks" fields = Some v ->
  is_scalar v = true ->
  task_monitor json_loads env task_id status fs = (fs', Raise TypeError).
Proof.
  intros Hload Hkey Hv. rewrite (task_monitor_loads _ _ _ _ _ _ _ Hload).
  unfold query_tasks. simpl. rewrite Hkey. simpl.
  destruct v; try discriminate; by destruct (truthy task_id), (truthy status).
Qed.

Lemma task_monitor_tasks_scalar_witness :
  loads docs_parser ∅ (store_fs null_tasks_doc) (store_fs null_tasks_doc) null_tasks_doc
  ∧ assoc "tasks" [ ("tasks", JNull) ] = Some JNull
  ∧ is_scalar JNull = true
  ∧ task_monitor docs_parser ∅ None (Some "failed") (store_fs null_tasks_doc)
    = (store_fs null_tasks_doc, Raise TypeError).
Proof.
  assert (Hload : loads docs_parser ∅ (store_fs null_tasks_doc) (store_fs null_tasks_doc)
                    null_tasks_doc)
    by (by apply (loads_present _ _ _ (json_dumps null_tasks_doc))).
  split; [exact Hload|]. split; [reflexivity|]. split; [reflexivity|].
  exact (task_monitor_tasks_scalar _ _ _ _ _ JNull None (Some "failed")
           Hload eq_refl eq_refl).
Defined.

Lemma py_getitem_missing (k : string) (t : json) :
  field k t = None -> py_getitem t k = Raise (missing_key_error k t).
Proof. destruct t; simpl; try reflexivity. by intros ->. Qed.

(** The lookup loop walks past the records that carry another id. *)
Lemma scan_task_id_skip (task_id : string) (before rest : list json) :
  Forall (λ t, is_Some (field "task_id" t) ∧ has_id task_id t = false) before ->
  scan_task_id task_id (before ++ rest) = scan_task_id task_id rest.
Proof.
  induction 1 as [|t before [[v Hv] Hno] _ IH]; [reflexivity|]. simpl.
  rewrite (py_getitem_field _ _ _ Hv). simpl.
  unfold has_id in Hno. rewrite Hv in Hno. by rewrite Hno.
Qed.

(** The comprehension stops at the first item without status. *)
Lemma select_status_stops (status : string) (before after : list json) (bad : json) :
  Forall (λ t, is_Some (field "status" t)) before ->
  field "status" bad = None ->
  select_status status (before ++ bad :: after)
  = Raise (missing_key_error "status" bad).
Proof.
  intros Hbefore Hbad. induction Hbefore as [|t before [v Hv] _ IH]; simpl.
  - by rewrite (py_getitem_missing _ _ Hbad).
  - rewrite (py_getitem_field _ _ _ Hv). simpl. by rewrite IH.
Qed.

(** X5.  The lookup stops at the first record with the id: what follows
    it in the store is not inspected and may be malformed without any
    effect on the answer. *)
Theorem task_monitor_lookup_stops_at_match
    (json_loads : string -> option json) (env : environ) (fs fs' : filesystem)
    (data : json) (before after : list json) (r : json)
    (task_id : string) (status : option string) :
  loads json_loads env fs fs' data ->
  py_get data "tasks" (JArr []) = Return (JArr (before ++ r :: after)) ->
  Forall (λ t, is_Some (field "task_id" t) ∧ has_id task_id t = false) before ->
  field "task_id" r = Some (JStr task_id) ->
  task_id ≠ EmptyString ->
  task_monitor json_loads env (Some task_id) status fs
  = (fs', Return (JsonText (JObj
       [ ("success", JBool true);
         ("task", r);
         ("message", JStr ("成功获取任务 " +:+ task_id +:+ " 的信息")) ]))).
Proof.
  intros Hload Hget Hbefore Hr Hne. rewrite (task_monitor_loads _ _ _ _ _ _ _ Hload).
  unfold query_tasks. rewrite Hget, (truthy_Some _ Hne). simpl.
  rewrite (scan_task_id_skip _ _ _ Hbefore). simpl.
  rewrite (py_getitem_field _ _ _ Hr). simpl. by rewrite String.eqb_refl.
Qed.

Lemma task_monitor_lookup_stops_at_match_witness :
  let a := JObj [ ("task_id", JStr "a"); ("status", JStr "success") ] in
  let b := JObj [ ("task_id", JStr "b"); ("status", JStr "archived") ] in
  loads docs_parser ∅ (store_fs ragged_doc) (store_fs ragged_doc) ragged_doc
  ∧ py_get ragged_doc "tasks" (JArr [])
    = Return (JArr ([a] ++ b :: [ JInt 7; JObj [ ("name", JStr "c") ] ]))
  ∧ Forall (λ t, is_Some (field "task_id" t) ∧ has_id "b" t = false) [a]
  ∧ field "task_id" b = Some (JStr "b")
  ∧ "b" ≠ EmptyString
  ∧ task_monitor docs_parser ∅ (Some "b") None (store_fs ragged_doc)
    = (store_fs ragged_doc, Return (JsonText (JObj
         [ ("success", JBool true); ("task", b);
           ("message", JStr "成功获取任务 b 的信息") ]))).
Proof.
  intros a b.
  assert (Hload : loads docs_parser ∅ (store_fs ragged_doc) (store_fs ragged_doc)
                    ragged_doc)
    by (by apply (loads_present _ _ _ (json_dumps ragged_doc))).
  assert (Hbefore : Forall (λ t, is_Some (field "task_id" t) ∧ has_id "b" t = false) [a]).
  { constructor; [|constructor]. split; [by eexists | reflexivity]. }
  assert (Hne : "b" ≠ EmptyString) by discriminate.
  split; [exact Hload|]. split; [reflexivity|]. split; [exact Hbefore|].
  split; [reflexivity|]. split; [exact Hne|].
  exact (task_monitor_lookup_stops_at_match _ _ _ _ _ [a] _ b "b" None
           Hload eq_refl Hbefore eq_refl Hne).
Defined.

(** X6.  A lookup that meets, before any record with the id, an item
    without a "task_id" fails: with [KeyError('task_id')] when the item is
    an object, with [TypeError] when it is not; a matching record further
    on does not help. *)
Theorem task_monitor_lookup_malformed_item
    (json_loads : string -> option json) (env : environ) (fs fs' : filesystem)
    (data : json) (before after : list json) (bad : json)
    (task_id : string) (status : option string) :
  loads json_loads env fs fs' data ->
  py_get data "tasks" (JArr []) = Return (JArr (before ++ bad :: after)) ->
  Forall (λ t, is_Some (field "task_id" t) ∧ has_id task_id t = false) before ->
  field "task_id" bad = None ->
  task_id ≠ EmptyString ->
  task_monitor json_loads env (Some task_id) status fs
  = (fs', Raise (missing_key_error "task_id" bad)).
Proof.
  intros Hload Hget Hbefore Hbad Hne. rewrite (task_monitor_loads _ _ _ _ _ _ _ Hload).
  unfold query_tasks. rewrite Hget, (truthy_Some _ Hne). simpl.
  rewrite (scan_task_id_skip _ _ _ Hbefore). simpl.
  by rewrite (py_getitem_missing _ _ Hbad).
Qed.

Lemma task_monitor_lookup_malformed_item_witness :
  let a := JObj [ ("task_id", JStr "a"); ("status", JStr "success") ] in
  let b := JObj [ ("task_id", JStr "b"); ("status", JStr "archived") ] in
  loads docs_parser ∅ (store_fs ragged_doc) (store_fs ragged_doc) ragged_doc
  ∧ py_get ragged_doc "tasks" (JArr [])
    = Return (JArr ([a; b] ++ JInt 7 :: [ JObj [ ("name", JStr "c") ] ]))
  ∧ Forall (λ t, is_Some (field "task_id" t) ∧ has_id "c" t = false) [a; b]
  ∧ field "task_id" (JInt 7) = None
  ∧ "c" ≠ EmptyString
  ∧ task_monitor docs_parser ∅ (Some "c") None (store_fs ragged_doc)
    = (store_fs ragged_doc, Raise TypeError).
Proof.
  intros a b.
  assert (Hload : loads docs_parser ∅ (store_fs ragged_doc) (store_fs ragged_doc)
                    ragged_doc)
    by (by apply (loads_present _ _ _ (json_dumps ragged_doc))).
  assert (Hbefore : Forall (λ t, is_Some (field "task_id" t) ∧ has_id "c" t = false)
                      [a; b]).
  { repeat (constructor; [split; [by eexists | reflexivity]|]). constructor. }
  assert (Hne : "c" ≠ EmptyString) by discriminate.
  split; [exact Hload|]. split; [reflexivity|]. split; [exact Hbefore|].
  split; [reflexivity|]. split; [exact Hne|].
  exact (task_monitor_lookup_malformed_item _ _ _ _ _ [a; b] _ (JInt 7) "c" None
           Hload eq_refl Hbefore eq_refl Hne).
Defined.

(** X7.  One item without a "status" is enough to make the status filter
    and the full listing fail, with [KeyError('status')] for an object and
    [TypeError] otherwise: no partial list and no summary is returned. *)
Theorem task_monitor_status_malformed_item
    (json_loads : string -> option json) (env : environ) (fs fs' : filesystem)
    (data : json) (before after : list json) (bad : json)
    (task_id status : option string) :
  loads json_loads env fs fs' data ->
  py_get data "tasks" (JArr []) = Return (JArr (before ++ bad :: after)) ->
  Forall (λ t, is_Some (field "status" t)) before ->
  field "status" bad = None ->
  truthy task_id = false ->
  task_monitor json_loads env task_id status fs
  = (fs', Raise (missing_key_error "status" bad)).
Proof.
  intros Hload Hget Hbefore Hbad Hid. rewrite (task_monitor_loads _ _ _ _ _ _ _ Hload).
  unfold query_tasks. rewrite Hget, Hid. simpl.
  destruct (truthy status).
  - by rewrite (select_status_stops _ _ _ _ Hbefore Hbad).
  - unfold count_status. simpl.
    rewrite (select_status_stops "success" _ _ _ Hbefore Hbad). reflexivity.
Qed.

Lemma task_monitor_status_malformed_item_witness :
  let a := JObj [ ("task_id", JStr "a"); ("status", JStr "success") ] in
  let b := JObj [ ("task_id", JStr "b"); ("status", JStr "archived") ] in
  loads docs_parser ∅ (store_fs ragged_doc) (store_fs ragged_doc) ragged_doc
  ∧ py_get ragged_doc "tasks" (JArr [])
    = Return (JArr ([a; b] ++ JInt 7 :: [ JObj [ ("name", JStr "c") ] ]))
  ∧ Forall (λ t, is_Some (field "status" t)) [a; b]
  ∧ field "status" (JInt 7) = None
  ∧ truthy None = false
  ∧ task_monitor docs_parser ∅ None None (store_fs ragged_doc)
    = (store_fs ragged_doc, Raise TypeError).
Proof.
  intros a b.
  assert (Hload : loads docs_parser ∅ (store_fs ragged_doc) (store_fs ragged_doc)
                    ragged_doc)
    by (by apply (loads_present _ _ _ (json_dumps ragged_doc))).
  assert (Hbefore : Forall (λ t, is_Some (field "status" t)) [a; b]).
  { repeat (constructor; [by eexists|]). constructor. }
  split; [exact Hload|]. split; [reflexivity|]. split; [exact Hbefore|].
  split; [reflexivity|]. split; [reflexivity|].
  exact (task_monitor_status_malformed_item _ _ _ _ _ [a; b] _ (JInt 7) None None
           Hload eq_refl Hbefore eq_refl eq_refl).
Defined.

(** A record has one status: it falls into one bucket at most. *)
Lemma has_status_exclusive (s s' : string) (t : json) :
  s ≠ s' -> has_status s t = true -> has_status s' t = false.
Proof.
  intros Hne Hs%has_status_spec. unfold has_status. rewrite Hs. simpl.
  by apply String.eqb_neq.
Qed.

Lemma status_buckets_sum (tasks : list json) :
  status_count "success" tasks + status_count "failed" tasks
  + status_count "running" tasks + status_count "pending" tasks
  = Z.of_nat (length (List.filter counted_status tasks)).
Proof.
  unfold status_count. induction tasks as [|t tasks IH]; [reflexivity|].
  simpl. unfold counted_status at 1.
  destruct (has_status "success" t) eqn:H1.
  { rewrite (has_status_exclusive "success" "failed" t), (has_status_exclusive "success" "running" t),
      (has_status_exclusive "success" "pending" t) by done. simpl. lia. }
  destruct (has_status "failed" t) eqn:H2.
  { rewrite (has_status_exclusive "failed" "running" t),
      (has_status_exclusive "failed" "pending" t) by done. simpl. lia. }
  destruct (has_status "running" t) eqn:H3.
  { rewrite (has_status_exclusive "running" "pending" t) by done. simpl. lia. }
  destruct (has_status "pending" t) eqn:H4; simpl; lia.
Qed.

Lemma filter_all_iff {A : Type} (f : A -> bool) (l : list A) :
  length (List.filter f l) = length l <-> Forall (λ x, f x = true) l.
Proof.
  induction l as [|x l IH]; simpl.
  - split; [constructor | reflexivity].
  - pose proof (List.filter_length_le f l) as Hle.
    destruct (f x) eqn:Hx; simpl.
    + split.
      * intros [= Hlen]. constructor; [done | by apply IH].
      * intros Hall. inversion Hall; subst. f_equal. by apply IH.
    + split; [lia|]. intros Hall. inversion Hall; subst. congruence.
Qed.

(** X8.  In the summary of the full listing the four buckets together
    count the records whose status is one of success, failed, running and
    pending: their sum never exceeds the total, and equals it exactly when
    no record has another status. *)
Theorem task_monitor_summary_buckets
    (json_loads : string -> option json) (env : environ) (fs fs' : filesystem)
    (data : json) (tasks : list json) :
  loads json_loads env fs fs' data ->
  task_store data tasks ->
  let total := Z.of_nat (length tasks) in
  let n_success := status_count "success" tasks in
  let n_failed := status_count "failed" tasks in
  let n_running := status_count "running" tasks in
  let n_pending := status_count "pending" tasks in
  task_monitor json_loads env None None fs
  = (fs', Return (JsonText (JObj
       [ ("success", JBool true);
         ("tasks", JArr tasks);
         ("count", JInt total);
         ("summary", JObj
           [ ("total", JInt total);
             ("success", JInt n_success);
             ("failed", JInt n_failed);
             ("running", JInt n_running);
             ("pending", JInt n_pending) ]);
         ("message", JStr ("当前共有 " +:+ pretty total +:+ " 个批量任务")) ])))
  ∧ n_success + n_failed + n_running + n_pending
    = Z.of_nat (length (List.filter counted_status tasks))
  ∧ n_success + n_failed + n_running + n_pending <= total
  ∧ (n_success + n_failed + n_running + n_pending = total
     <-> Forall (λ t, counted_status t = true) tasks).
Proof.
  intros Hload Hstore total n_success n_failed n_running n_pending.
  pose proof (status_buckets_sum tasks) as Hsum.
  pose proof (List.filter_length_le counted_status tasks) as Hle.
  split; [|split; [|split]].
  - rewrite (task_monitor_loads _ _ _ _ _ _ _ Hload).
    by rewrite (query_all _ _ _ _ Hstore).
  - exact Hsum.
  - unfold n_success, n_failed, n_running, n_pending, total. lia.
  - unfold n_success, n_failed, n_running, n_pending, total.
    rewrite Hsum, <- filter_all_iff. lia.
Qed.

Lemma archive_store : task_store archive_doc archive_tasks.
Proof.
  split; [reflexivity|].
  repeat (constructor; [split; eexists; reflexivity|]). constructor.
Defined.

Lemma archive_loads :
  loads docs_parser ∅ (store_fs archive_doc) (store_fs archive_doc) archive_doc.
Proof.
  apply (loads_present _ _ _ (json_dumps archive_doc)); [reflexivity | by vm_compute].
Defined.

Lemma task_monitor_summary_buckets_witness :
  loads docs_parser ∅ (store_fs archive_doc) (store_fs archive_doc) archive_doc
  ∧ task_store archive_doc archive_tasks
  ∧ task_monitor docs_parser ∅ None None (store_fs archive_doc)
    = (store_fs archive_doc, Return (JsonText (JObj
         [ ("success", JBool true);
           ("tasks", JArr archive_tasks);
           ("count", JInt 3);
           ("summary", JObj
             [ ("total", JInt 3); ("success", JInt 1); ("failed", JInt 1);
               ("running", JInt 0); ("pending", JInt 0) ]);
           ("message", JStr "当前共有 3 个批量任务") ]))).
Proof.
  split; [apply archive_loads|]. split; [apply archive_store|].
  destruct (task_monitor_summary_buckets _ _ _ _ _ _ archive_loads archive_store)
    as [-> _].
  reflexivity.
Defined.

(** X9.  The count returned for a status filter on one of the four
    summarised values is the number the full listing reports in that
    bucket of its summary. *)
Theorem task_monitor_filter_count_is_bucket
    (json_loads : string -> option json) (env : environ) (fs fs' : filesystem)
    (data : json) (tasks : list json) (status : string) :
  loads json_loads env fs fs' data ->
  task_store data tasks ->
  status ∈ ["success"; "failed"; "running"; "pending"] ->
  ∃ (n : Z) (found : list json) (note note' : string) (summary' : json),
    task_monitor json_loads env None (Some status) fs
    = (fs', Return (JsonText (JObj
         [ ("success", JBool true); ("tasks", JArr found); ("count", JInt n);
           ("message", JStr note) ])))
    ∧ task_monitor json_loads env None None fs
      = (fs', Return (JsonText (JObj
           [ ("success", JBool true); ("tasks", JArr tasks);
             ("count", JInt (Z.of_nat (length tasks)));
             ("summary", summary'); ("message", JStr note') ])))
    ∧ field status summary' = Some (JInt n).
Proof.
  intros Hload Hstore Hin.
  assert (Hne : status ≠ EmptyString).
  { intros ->. repeat (apply elem_of_cons in Hin as [Hin | Hin]; [discriminate|]).
    by apply elem_of_nil in Hin. }
  exists (status_count status tasks), (List.filter (has_status status) tasks).
  eexists _, _, (summary tasks). split; [|split].
  - rewrite (task_monitor_loads _ _ _ _ _ _ _ Hload).
    by rewrite (query_by_status _ _ None _ Hstore eq_refl Hne).
  - rewrite (task_monitor_loads _ _ _ _ _ _ _ Hload).
    by rewrite (query_all _ _ _ _ Hstore).
  - repeat (apply elem_of_cons in Hin as [-> | Hin]; [reflexivity|]).
    by apply elem_of_nil in Hin.
Qed.

Lemma task_monitor_filter_count_is_bucket_witness :
  loads docs_parser ∅ (store_fs archive_doc) (store_fs archive_doc) archive_doc
  ∧ task_store archive_doc archive_tasks
  ∧ ("failed" ∈ ["success"; "failed"; "running"; "pending"])
  ∧ ∃ found note,
      task_monitor docs_parser ∅ None (Some "failed") (store_fs archive_doc)
      = (store_fs archive_doc, Return (JsonText (JObj
           [ ("success", JBool true); ("tasks", JArr found); ("count", JInt 1);
             ("message", JStr note) ]))).
Proof.
  assert (Hin : "failed" ∈ ["success"; "failed"; "running"; "pending"]).
  { apply list_elem_of_further, list_elem_of_here. }
  split; [apply archive_loads|]. split; [apply archive_store|]. split; [exact Hin|].
  destruct (task_monitor_filter_count_is_bucket _ _ _ _ _ _ _
              archive_loads archive_store Hin)
    as (n & found & note & note' & summary' & Hfilter & Hall & Hbucket).
  exists found, note. rewrite Hfilter.
  rewrite (task_monitor_loads _ _ _ _ _ _ _ archive_loads) in Hall.
  injection Hall as <- _. by injection Hbucket as <-.
Defined.

(** ** The file system around the store *)

(** [makedirs] goes through exactly when no regular file is in its way. *)
Lemma mkdirs_returns_iff (ps : list string) (fs : filesystem) :
  (∃ fs1, mkdirs ps fs = (fs1, Return tt))
  <-> (∀ q t, q ∈ ps -> fs !! q ≠ Some (File t)).
Proof.
  revert fs. induction ps as [|p ps IH]; intros fs; simpl.
  - split; [|by eauto]. intros _ q t Hq. by apply elem_of_nil in Hq.
  - unfold mbind, M_bind, ensure_dir.
    destruct (fs !! p) as [[text|]|] eqn:Hp.
    + split; [by intros [fs1 [=]]|]. intros Hfree.
      destruct (Hfree p text); [apply list_elem_of_here | done].
    + rewrite IH. split.
      * intros Hfree q t [-> | Hq]%elem_of_cons; [congruence | by apply Hfree].
      * intros Hfree q t Hq. apply Hfree. by apply list_elem_of_further.
    + rewrite IH. split.
      * intros Hfree q t [-> | Hq]%elem_of_cons; [congruence|].
        specialize (Hfree q t Hq). destruct (decide (p = q)) as [->|Hne]; [congruence|].
        by rewrite lookup_insert_ne in Hfree.
      * intros Hfree q t Hq. destruct (decide (p = q)) as [->|Hne].
        -- by rewrite lookup_insert_eq.
        -- rewrite lookup_insert_ne by done. apply Hfree. by apply list_elem_of_further.
Qed.

Lemma makedirs_returns_iff (p : string) (fs : filesystem) :
  (∃ fs1, makedirs p fs = (fs1, Return tt)) <-> ¬ blocked fs p.
Proof.
  unfold makedirs. rewrite mkdirs_returns_iff. unfold blocked. split.
  - intros Hfree (q & t & Hq & Hfile). by apply (Hfree q t).
  - intros Hnot q t Hq Hfile. apply Hnot. eauto.
Qed.

(** What [makedirs] raises is an [OSError]. *)
Lemma mkdirs_raises (ps : list string) (fs fs1 : filesystem) (e : exn) :
  mkdirs ps fs = (fs1, Raise e) -> ∃ errno msg path, e = OSError errno msg path.
Proof.
  revert fs. induction ps as [|p ps IH]; intros fs; simpl; [done|].
  unfold mbind, M_bind, ensure_dir.
  destruct (fs !! p) as [[text|]|]; [|by apply IH..].
  intros [= <- <-]. destruct (head ps); eauto.
Qed.

Lemma makedirs_blocked (p : string) (fs : filesystem) :
  blocked fs p ->
  ∃ fs1 errno msg path, makedirs p fs = (fs1, Raise (OSError errno msg path)).
Proof.
  intros Hb. destruct (makedirs p fs) as [fs1 [[]|e]] eqn:Hmk.
  - exfalso. apply (proj1 (makedirs_returns_iff p fs)); eauto.
  - destruct (mkdirs_raises _ _ _ _ Hmk) as (errno & msg & path & ->). eauto 6.
Qed.

Lemma mkdirs_frame (ps : list string) (fs fs1 : filesystem) (r : outcome unit) (q : string) :
  mkdirs ps fs = (fs1, r) -> q ∉ ps -> fs1 !! q = fs !! q.
Proof.
  intros Hmk Hq. by destruct (mkdirs_lookup _ _ _ _ q Hmk) as [? | (? & _)].
Qed.

(** X10.  [task_monitor] touches nothing but the store file and the
    directories that lead to it: every other path of the file system is
    after the call what it was before, and when something already sits at
    the store path the whole file system is left as it was, whatever the
    outcome of the call. *)
Theorem task_monitor_touches_only_store
    (json_loads : string -> option json) (env : environ) (fs fs1 : filesystem)
    (r : outcome output) (task_id status : option string) :
  task_monitor json_loads env task_id status fs = (fs1, r) ->
  (∀ q, q ≠ data_file env -> q ∉ ancestors (dirname (data_file env)) ->
        fs1 !! q = fs !! q)
  ∧ (is_Some (fs !! data_file env) -> fs1 = fs).
Proof.
  destruct (fs !! data_file env) as [[text|]|] eqn:Hp.
  - rewrite (task_monitor_present _ _ _ text) by done. by intros [= <- <-].
  - rewrite task_monitor_directory by done. by intros [= <- <-].
  - destruct (makedirs (dirname (data_file env)) fs) as [fs2 [[]|e]] eqn:Hmk.
    + rewrite (task_monitor_bootstrap _ _ _ fs2) by done. intros [= <- <-].
      split; [|by intros [? ?]]. intros q Hne Hnot.
      rewrite lookup_insert_ne by done. by apply (mkdirs_frame _ _ _ _ _ Hmk).
    + rewrite (task_monitor_blocked _ _ _ fs2 e) by done. intros [= <- <-].
      split; [|by intros [? ?]]. intros q Hne Hnot.
      by apply (mkdirs_frame _ _ _ _ _ Hmk).
Qed.

Lemma task_monitor_touches_only_store_witness :
  let first := task_monitor sample_parser ∅ None None logged_fs in
  task_monitor sample_parser ∅ None None logged_fs = (fst first, snd first)
  ∧ fst first !! "/workspace/projects/logs/job_7.log" = Some (File three_lines)
  ∧ fst first !! "/workspace/projects/assets/task_data.json"
    = Some (File (json_dumps sample_data)).
Proof.
  intros first.
  assert (H1 : task_monitor sample_parser ∅ None None logged_fs = (fst first, snd first))
    by (subst first; by destruct (task_monitor _ _ _ _ _)).
  split; [exact H1|]. split; [|by vm_compute].
  destruct (task_monitor_touches_only_store _ _ _ _ _ _ _ H1) as [Hframe _].
  rewrite (Hframe "/workspace/projects/logs/job_7.log").
  - reflexivity.
  - discriminate.
  - vm_compute. intros Hin.
    repeat (apply elem_of_cons in Hin as [Hin | Hin]; [discriminate|]).
    by apply elem_of_nil in Hin.
Defined.

(** X11.  A directory sitting where a file is expected is handled in two
    ways.  At the store path, [task_monitor] lets the [IsADirectoryError]
    of [open] escape; at the log path, [task_log_reader] catches it and
    returns a [success: false] object whose message ends with the text of
    the error, in which the path appears as its [repr] (the path being
    ASCII). *)
Theorem directory_in_place_of_file
    (json_loads : string -> option json) (env : environ) (fs fs1 : filesystem)
    (task_id status : option string) (log_id : string) (lines : Z) :
  fs !! data_file env = Some Dir ->
  makedirs (logs_dir env) fs = (fs1, Return tt) ->
  fs !! log_file env log_id = Some Dir ->
  ascii_only (log_file env log_id) = true ->
  task_monitor json_loads env task_id status fs
  = (fs, Raise (OSError 21 "Is a directory" (data_file env)))
  ∧ task_log_reader env log_id lines fs
    = (fs1, Return (JsonText (JObj
         [ ("success", JBool false);
           ("message", JStr ("读取日志失败: [Errno 21] Is a directory: "
                             +:+ py_repr (log_file env log_id))) ]))).
Proof.
  intros Hstore Hmk Hlog _. split.
  - by apply task_monitor_directory.
  - pose proof (mkdirs_keeps _ _ _ _ _ _ Hmk Hlog) as Hlog1.
    rewrite (task_log_reader_present _ _ _ _ _ _ Hmk Hlog1).
    by rewrite read_log_tail_directory.
Qed.

(** With an apostrophe in the id, the path is printed between double
    quotes. *)
Lemma directory_in_place_of_file_witness :
  let fs : filesystem :=
    {[ "/workspace" := Dir;
       "/workspace/projects" := Dir;
       "/workspace/projects/logs" := Dir;
       "/workspace/projects/assets/task_data.json" := Dir;
       "/workspace/projects/logs/it's.log" := Dir ]} in
  fs !! data_file ∅ = Some Dir
  ∧ makedirs (logs_dir ∅) fs = (fs, Return tt)
  ∧ fs !! log_file ∅ "it's" = Some Dir
  ∧ ascii_only (log_file ∅ "it's") = true
  ∧ task_monitor sample_parser ∅ None None fs
    = (fs, Raise (OSError 21 "Is a directory" "/workspace/projects/assets/task_data.json"))
  ∧ task_log_reader ∅ "it's" 100 fs
    = (fs, Return (JsonText (JObj
         [ ("success", JBool false);
           ("message", JStr ("读取日志失败: [Errno 21] Is a directory: "
                             +:+ String dquote ("/workspace/projects/logs/it's.log"
                                                +:+ str1 dquote))) ]))).
Proof.
  intros fs.
  assert (H1 : fs !! data_file ∅ = Some Dir) by reflexivity.
  assert (H2 : makedirs (logs_dir ∅) fs = (fs, Return tt)).
  { apply mkdirs_all_there. intros q Hq. vm_compute in Hq.
    repeat (apply elem_of_cons in Hq as [-> | Hq]; [reflexivity|]).
    by apply elem_of_nil in Hq. }
  assert (H3 : fs !! log_file ∅ "it's" = Some Dir) by reflexivity.
  assert (H4 : ascii_only (log_file ∅ "it's") = true) by reflexivity.
  split; [exact H1|]. split; [exact H2|]. split; [exact H3|]. split; [exact H4|].
  exact (directory_in_place_of_file sample_parser _ _ _ None None "it's" 100 H1 H2 H3 H4).
Defined.



(** ** [task_log_reader]: what is returned and what is touched *)

Lemma append_assoc (a b c : string) : (a +:+ b) +:+ c = a +:+ (b +:+ c).
Proof. induction a as [|x a IH]; simpl; [reflexivity | by rewrite IH]. Qed.

Lemma py_join_app (l1 l2 : list string) :
  py_join (l1 ++ l2) = py_join l1 +:+ py_join l2.
Proof.
  induction l1 as [|l l1 IH]; [reflexivity|].
  rewrite <- app_comm_cons. by rewrite !py_join_cons, IH, append_assoc.
Qed.

(** The lines left after dropping some are the lines of a tail of the
    text. *)
Lemma drop_split_lines (s : string) (k : nat) :
  ∃ s', drop k (split_lines s) = split_lines s'.
Proof.
  revert k. induction s as [|c s IH]; intros k.
  - exists EmptyString. by destruct k.
  - destruct k as [|k]; [by exists (String c s)|]. simpl.
    destruct (Ascii.eqb c LF); [apply IH|].
    destruct (split_lines s) as [|l ls] eqn:Hs.
    + exists EmptyString. by destruct k.
    + destruct (IH (S k)) as [s' Hs']. by exists s'.
Qed.

Lemma has_char_app (c : ascii) (a b : string) :
  has_char c (a +:+ b) = has_char c a || has_char c b.
Proof. induction a as [|x a IH]; simpl; [reflexivity | by rewrite IH, orb_assoc]. Qed.

Lemma has_char_cons (c x : ascii) (s : string) :
  has_char c (String x s) = Ascii.eqb x c || has_char c s.
Proof. reflexivity. Qed.

(** Text read with universal newlines holds no carriage return. *)
Lemma universal_newlines_no_cr (s : string) :
  has_char CR (universal_newlines s) = false.
Proof.
  assert (H : has_char CR (universal_newlines s) = false
              ∧ ∀ c, has_char CR (universal_newlines (String c s)) = false).
  { induction s as [|c' s [IH1 IH2]].
    - split; [reflexivity|]. intros c. simpl.
      destruct (Ascii.eqb c CR) eqn:Hc; simpl; [reflexivity | by rewrite Hc].
    - split; [apply IH2|]. intros c.
      change (universal_newlines (String c (String c' s)))
        with (if Ascii.eqb c CR
              then if Ascii.eqb c' LF then String LF (universal_newlines s)
                   else String LF (universal_newlines (String c' s))
              else String c (universal_newlines (String c' s))).
      destruct (Ascii.eqb c CR) eqn:Hc.
      + destruct (Ascii.eqb c' LF); rewrite has_char_cons; [by rewrite IH1 | by rewrite IH2].
      + rewrite has_char_cons. by rewrite Hc, IH2. }
  apply H.
Qed.

(** The lines the [try] block keeps are the stored lines without some of
    the first ones. *)
Lemma kept_lines_drop {A : Type} (lines : Z) (all_lines : list A) :
  ∃ k, (if lines <? Z.of_nat (length all_lines)
        then py_slice_from (- lines) all_lines else all_lines)
       = drop k all_lines.
Proof.
  destruct (lines <? _); [by eexists | by exists 0%nat].
Qed.





Lemma last_n_length {A : Type} (n : nat) (l : list A) :
  length (last_n n l) = Nat.min n (length l).
Proof. unfold last_n. rewrite length_drop. lia. Qed.

(** X14.  For an existing log file whose bytes decode as UTF-8 and
    [lines >= 1], the answer carries the last [lines] lines of the file as
    read, in their order:
    [log_lines] is the smaller of [lines] and the line count, the lines
    before them are left out, and all of the text is returned when
    [lines] reaches the line count. *)
Theorem task_log_reader_last_lines
    (env : environ) (fs fs1 : filesystem) (text task_id : string) (lines : Z) :
  makedirs (logs_dir env) fs = (fs1, Return tt) ->
  fs !! log_file env task_id = Some (File text) ->
  utf8_fault text = None ->
  0 < lines ->
  let all_lines := log_lines_of text in
  let total := Z.of_nat (length all_lines) in
  let kept := last_n (Z.to_nat lines) all_lines in
  task_log_reader env task_id lines fs
  = (fs1, Return (JsonText (JObj
       [ ("success", JBool true);
         ("task_id", JStr task_id);
         ("log_lines", JInt (Z.min lines total));
         ("log_content", JStr (py_join kept));
         ("message", JStr ("成功读取任务 " +:+ task_id +:+ " 的日志，共 "
                           +:+ pretty (Z.min lines total) +:+ " 行")) ])))
  ∧ (∃ skipped : list string,
       all_lines = (skipped ++ kept)%list
       ∧ Z.of_nat (length skipped) = total - Z.min lines total)
  ∧ (total <= lines -> py_join kept = universal_newlines text).
Proof.
  intros Hmk Hp Hutf Hpos all_lines total kept. split; [|split].
  - rewrite (task_log_reader_positive_lines _ _ _ _ _ _ Hmk Hp Hutf Hpos).
    unfold log_reply. fold all_lines. fold kept.
    replace (Z.of_nat (length kept)) with (Z.min lines total); [reflexivity|].
    unfold kept, total. rewrite last_n_length. lia.
  - exists (take (length all_lines - Z.to_nat lines) all_lines). split.
    + unfold kept, last_n. by rewrite take_drop.
    + rewrite length_take. unfold total. lia.
  - intros Hall. unfold kept, last_n.
    replace (length all_lines - Z.to_nat lines)%nat with 0%nat
      by (unfold total in Hall; lia).
    rewrite drop_0. unfold all_lines, log_lines_of. apply py_join_split_lines.
Qed.

Lemma task_log_reader_last_lines_witness :
  makedirs (logs_dir ∅) logged_fs = (logged_fs, Return tt)
  ∧ logged_fs !! log_file ∅ "job_7" = Some (File three_lines)
  ∧ utf8_fault three_lines = None
  ∧ 0 < 2
  ∧ snd (task_log_reader ∅ "job_7" 2 logged_fs)
    = Return (log_reply "job_7" (drop 1 (split_lines three_lines))).
Proof.
  pose proof logged_fs_makedirs as Hmk.
  assert (Hp : logged_fs !! log_file ∅ "job_7" = Some (File three_lines)) by reflexivity.
  assert (Hutf : utf8_fault three_lines = None) by reflexivity.
  assert (Hpos : 0 < 2) by lia.
  split; [exact Hmk|]. split; [exact Hp|]. split; [exact Hutf|]. split; [exact Hpos|].
  destruct (task_log_reader_last_lines _ _ _ _ _ _ Hmk Hp Hutf Hpos) as [-> _].
  reflexivity.
Defined.

(** X15.  Whatever [lines] is, what an existing log file whose bytes
    decode as UTF-8 yields is a tail of its text as read: [log_content] is the text without some leading
    part, it holds no carriage return, and [log_lines] is exactly the
    number of lines of [log_content]. *)
Theorem task_log_reader_returns_tail
    (env : environ) (fs fs1 : filesystem) (text task_id : string) (lines : Z) :
  makedirs (logs_dir env) fs = (fs1, Return tt) ->
  fs !! log_file env task_id = Some (File text) ->
  utf8_fault text = None ->
  ∃ before content,
    universal_newlines text = before +:+ content
    ∧ has_char CR content = false
    ∧ task_log_reader env task_id lines fs
      = (fs1, Return (JsonText (JObj
           [ ("success", JBool true);
             ("task_id", JStr task_id);
             ("log_lines", JInt (Z.of_nat (length (split_lines content))));
             ("log_content", JStr content);
             ("message", JStr ("成功读取任务 " +:+ task_id +:+ " 的日志，共 "
                               +:+ pretty (Z.of_nat (length (split_lines content)))
                               +:+ " 行")) ]))).
Proof.
  intros Hmk Hp Hutf. rewrite (task_log_reader_file _ _ _ _ _ _ Hmk Hp Hutf).
  destruct (kept_lines_drop lines (log_lines_of text)) as [k ->].
  destruct (drop_split_lines (universal_newlines text) k) as [tail Htail].
  fold (log_lines_of text) in Htail.
  assert (Hsplit : universal_newlines text
                   = py_join (take k (log_lines_of text)) +:+ tail).
  { rewrite <- (py_join_split_lines tail), <- Htail, <- py_join_app, take_drop.
    symmetry. apply py_join_split_lines. }
  exists (py_join (take k (log_lines_of text))), tail. split; [exact Hsplit|]. split.
  - pose proof (universal_newlines_no_cr text) as Hcr.
    rewrite Hsplit, has_char_app in Hcr. by apply orb_false_elim in Hcr as [_ ?].
  - unfold log_reply. by rewrite Htail, py_join_split_lines.
Qed.

Lemma task_log_reader_returns_tail_witness :
  makedirs (logs_dir ∅) logged_fs = (logged_fs, Return tt)
  ∧ logged_fs !! log_file ∅ "job_7" = Some (File three_lines)
  ∧ utf8_fault three_lines = None
  ∧ ∃ before content,
      three_lines = before +:+ content
      ∧ snd (task_log_reader ∅ "job_7" (-2) logged_fs)
        = Return (JsonText (JObj
            [ ("success", JBool true);
              ("task_id", JStr "job_7");
              ("log_lines", JInt (Z.of_nat (length (split_lines content))));
              ("log_content", JStr content);
              ("message", JStr ("成功读取任务 job_7 的日志，共 "
                                +:+ pretty (Z.of_nat (length (split_lines content)))
                                +:+ " 行")) ])).
Proof.
  pose proof logged_fs_makedirs as Hmk.
  assert (Hp : logged_fs !! log_file ∅ "job_7" = Some (File three_lines)) by reflexivity.
  assert (Hutf : utf8_fault three_lines = None) by reflexivity.
  split; [exact Hmk|]. split; [exact Hp|]. split; [exact Hutf|].
  destruct (task_log_reader_returns_tail _ _ _ _ _ (-2) Hmk Hp Hutf)
    as (before & content & Hsplit & _ & Hcall).
  exists before, content. split; [exact Hsplit|]. by rewrite Hcall.
Defined.

(** X16.  A log file that decodes as UTF-8 and has no line, or a negative
    [lines] whose absolute value reaches the line count of such a file,
    gives an empty answer that still says [success: true]: [log_lines] 0
    and an empty [log_content]. *)
Theorem task_log_reader_empty_answer
    (env : environ) (fs fs1 : filesystem) (text task_id : string) (lines : Z) :
  makedirs (logs_dir env) fs = (fs1, Return tt) ->
  fs !! log_file env task_id = Some (File text) ->
  utf8_fault text = None ->
  lines <= - Z.of_nat (length (log_lines_of text)) ∨ log_lines_of text = [] ->
  task_log_reader env task_id lines fs
  = (fs1, Return (JsonText (JObj
       [ ("success", JBool true);
         ("task_id", JStr task_id);
         ("log_lines", JInt 0);
         ("log_content", JStr EmptyString);
         ("message", JStr ("成功读取任务 " +:+ task_id +:+ " 的日志，共 0 行")) ]))).
Proof.
  intros Hmk Hp Hutf Hcase. rewrite (task_log_reader_file _ _ _ _ _ _ Hmk Hp Hutf).
  assert (Hkept : (if lines <? Z.of_nat (length (log_lines_of text))
                   then py_slice_from (- lines) (log_lines_of text)
                   else log_lines_of text) = []).
  { destruct Hcase as [Hlow | Hnil].
    - destruct (Z.ltb_spec lines (Z.of_nat (length (log_lines_of text)))) as [Hlt|Hge].
      + unfold py_slice_from. rewrite (proj2 (Z.ltb_ge _ _)) by lia.
        apply drop_ge. lia.
      + destruct (log_lines_of text); [reflexivity | simpl in *; lia].
    - rewrite Hnil. destruct (lines <? _); [|reflexivity].
      unfold py_slice_from. apply drop_nil. }
  by rewrite Hkept.
Qed.

Lemma task_log_reader_empty_answer_witness :
  makedirs (logs_dir ∅) logged_fs = (logged_fs, Return tt)
  ∧ logged_fs !! log_file ∅ "job_7" = Some (File three_lines)
  ∧ utf8_fault three_lines = None
  ∧ (-3 <= - Z.of_nat (length (log_lines_of three_lines))
     ∨ log_lines_of three_lines = [])
  ∧ task_log_reader ∅ "job_7" (-3) logged_fs
    = (logged_fs, Return (JsonText (JObj
         [ ("success", JBool true);
           ("task_id", JStr "job_7");
           ("log_lines", JInt 0);
           ("log_content", JStr EmptyString);
           ("message", JStr "成功读取任务 job_7 的日志，共 0 行") ]))).
Proof.
  pose proof logged_fs_makedirs as Hmk.
  assert (Hp : logged_fs !! log_file ∅ "job_7" = Some (File three_lines)) by reflexivity.
  assert (Hcase : -3 <= - Z.of_nat (length (log_lines_of three_lines))
                  ∨ log_lines_of three_lines = []) by (left; by vm_compute).
  assert (Hutf : utf8_fault three_lines = None) by reflexivity.
  split; [exact Hmk|]. split; [exact Hp|]. split; [exact Hutf|]. split; [exact Hcase|].
  exact (task_log_reader_empty_answer _ _ _ _ _ _ Hmk Hp Hutf Hcase).
Defined.

(** X17.  What [task_log_reader] leaves on disk.  Outside the log file of
    the requested id and the directories that lead to the log directory,
    every path is after the call what it was before; and a regular file
    found after the call either was there before with the same text, or
    is the log file of the requested id, missing before, now holding the
    sample transcript of that id.  An id without sample transcript never
    makes the tool write a file. *)
Theorem task_log_reader_footprint
    (env : environ) (fs fs1 : filesystem) (r : outcome output)
    (task_id : string) (lines : Z) :
  task_log_reader env task_id lines fs = (fs1, r) ->
  (∀ q, q ≠ log_file env task_id -> q ∉ ancestors (logs_dir env) ->
        fs1 !! q = fs !! q)
  ∧ (∀ q text, fs1 !! q = Some (File text) ->
       fs !! q = Some (File text)
       ∨ (q = log_file env task_id ∧ fs !! q = None
          ∧ assoc task_id sample_logs = Some text)).
Proof.
  assert (Hdirs : ∀ fs2 r2, makedirs (logs_dir env) fs = (fs2, r2) ->
            (∀ q, q ∉ ancestors (logs_dir env) -> fs2 !! q = fs !! q)
            ∧ (∀ q text, fs2 !! q = Some (File text) -> fs !! q = Some (File text))
            ∧ (∀ q, fs2 !! q = None -> fs !! q = None)).
  { intros fs2 r2 Hmk. split; [|split].
    - intros q Hq. by apply (mkdirs_frame _ _ _ _ _ Hmk).
    - intros q text Hfile.
      destruct (mkdirs_lookup _ _ _ _ q Hmk) as [Heq | (_ & _ & Hdir)]; congruence.
    - intros q Hnone.
      destruct (mkdirs_lookup _ _ _ _ q Hmk) as [Heq | (_ & _ & Hdir)]; congruence. }
  destruct (makedirs (logs_dir env) fs) as [fs2 [[]|e]] eqn:Hmk.
  - destruct (Hdirs _ _ eq_refl) as (Hframe & Hfiles & Hnone).
    destruct (fs2 !! log_file env task_id) as [n|] eqn:Hp.
    + rewrite (task_log_reader_present _ _ _ _ _ _ Hmk Hp).
      destruct (read_log_tail_total fs2 (log_file env task_id) task_id lines)
        as (o & flag & -> & _).
      intros [= <- <-]. split; [by auto|]. intros q text Hfile. left. by apply Hfiles.
    + destruct (assoc task_id sample_logs) as [sample|] eqn:Hsample.
      * rewrite (task_log_reader_bootstrap _ _ _ _ _ _ Hmk Hp Hsample).
        destruct (read_log_tail_total (<[log_file env task_id := File sample]> fs2)
                    (log_file env task_id) task_id lines) as (o & flag & -> & _).
        intros [= <- <-]. split.
        -- intros q Hne Hq. rewrite lookup_insert_ne by done. by apply Hframe.
        -- intros q text. destruct (decide (log_file env task_id = q)) as [<-|Hne].
           ++ rewrite lookup_insert_eq. intros [= <-]. right. auto.
           ++ rewrite lookup_insert_ne by done. intros Hfile. left. by apply Hfiles.
      * rewrite (task_log_reader_unknown _ _ _ _ _ Hmk Hp Hsample).
        intros [= <- <-]. split; [by auto|]. intros q text Hfile. left. by apply Hfiles.
  - destruct (Hdirs _ _ eq_refl) as (Hframe & Hfiles & Hnone).
    rewrite (task_log_reader_blocked _ _ _ _ _ _ Hmk).
    intros [= <- <-]. split; [by auto|]. intros q text Hfile. left. by apply Hfiles.
Qed.

Lemma task_log_reader_footprint_witness :
  let first := task_log_reader ∅ "task_002" 5 logged_fs in
  task_log_reader ∅ "task_002" 5 logged_fs = (fst first, snd first)
  ∧ fst first !! "/workspace/projects/logs/job_7.log" = Some (File three_lines)
  ∧ fst first !! "/workspace/projects/logs/task_002.log"
    = (File <$> assoc "task_002" sample_logs).
Proof.
  intros first.
  assert (H1 : task_log_reader ∅ "task_002" 5 logged_fs = (fst first, snd first))
    by (subst first; by destruct (task_log_reader _ _ _ _)).
  split; [exact H1|]. split; [|by vm_compute].
  destruct (task_log_reader_footprint _ _ _ _ _ _ H1) as [Hframe _].
  rewrite (Hframe "/workspace/projects/logs/job_7.log").
  - reflexivity.
  - discriminate.
  - vm_compute. intros Hin.
    repeat (apply elem_of_cons in Hin as [Hin | Hin]; [discriminate|]).
    by apply elem_of_nil in Hin.
Defined.

(** X18.  A task_id that begins with a slash is taken by [os.path.join]
    as an absolute path: the file read is [task_id + ".log"] whatever the
    workspace and its log directory are, and when its bytes decode as
    UTF-8 its last lines are returned like those of any log. *)
Theorem task_log_reader_absolute_id
    (env : environ) (fs fs1 : filesystem) (text task_id : string) (lines : Z) :
  starts_with_slash task_id = true ->
  makedirs (logs_dir env) fs = (fs1, Return tt) ->
  fs !! (task_id +:+ ".log") = Some (File text) ->
  utf8_fault text = None ->
  0 < lines ->
  log_file env task_id = task_id +:+ ".log"
  ∧ task_log_reader env task_id lines fs
    = (fs1, Return (log_reply task_id (last_n (Z.to_nat lines) (log_lines_of text)))).
Proof.
  intros Habs Hmk Hp Hutf Hpos.
  assert (Hpath : log_file env task_id = task_id +:+ ".log").
  { unfold log_file, path_join. destruct task_id as [|c rest]; [discriminate|].
    simpl in *. by rewrite Habs. }
  split; [exact Hpath|].
  apply task_log_reader_positive_lines; [done | by rewrite Hpath | done | done].
Qed.

Lemma task_log_reader_absolute_id_witness :
  let fs : filesystem := <[ "/etc/app.log" := File three_lines ]> logged_fs in
  starts_with_slash "/etc/app" = true
  ∧ makedirs (logs_dir ∅) fs = (fs, Return tt)
  ∧ fs !! ("/etc/app" +:+ ".log") = Some (File three_lines)
  ∧ utf8_fault three_lines = None
  ∧ 0 < 1
  ∧ snd (task_log_reader ∅ "/etc/app" 1 fs)
    = Return (log_reply "/etc/app" (drop 2 (split_lines three_lines))).
Proof.
  intros fs.
  assert (H2 : makedirs (logs_dir ∅) fs = (fs, Return tt)).
  { apply mkdirs_all_there. intros q Hq. vm_compute in Hq.
    repeat (apply elem_of_cons in Hq as [-> | Hq]; [reflexivity|]).
    by apply elem_of_nil in Hq. }
  assert (H3 : fs !! ("/etc/app" +:+ ".log") = Some (File three_lines)) by reflexivity.
  assert (Hutf : utf8_fault three_lines = None) by reflexivity.
  assert (H4 : 0 < 1) by lia.
  split; [reflexivity|]. split; [exact H2|]. split; [exact H3|]. split; [exact Hutf|].
  split; [exact H4|].
  destruct (task_log_reader_absolute_id ∅ _ _ _ "/etc/app" 1 eq_refl H2 H3 Hutf H4)
    as [_ ->].
  reflexivity.
Defined.

(** X19.  An existing log file whose bytes do not decode as UTF-8 is not
    returned: whatever [lines] is, the decoding error is caught and the
    answer is the [success: false] object whose message begins with the
    text of the [except] clause; nothing is written. *)
Theorem task_log_reader_undecodable
    (env : environ) (fs fs1 : filesystem) (bytes task_id : string) (lines : Z) :
  makedirs (logs_dir env) fs = (fs1, Return tt) ->
  fs !! log_file env task_id = Some (File bytes) ->
  utf8_fault bytes ≠ None ->
  ∃ detail,
    task_log_reader env task_id lines fs
    = (fs1, Return (JsonText (JObj
         [ ("success", JBool false);
           ("message", JStr ("读取日志失败: " +:+ detail)) ]))).
Proof.
  intros Hmk Hp Hutf.
  destruct (utf8_fault bytes) as [e|] eqn:Hfault; [|done].
  pose proof (mkdirs_keeps _ _ _ _ _ _ Hmk Hp) as Hp1.
  exists (exn_str e).
  rewrite (task_log_reader_present _ _ _ _ _ _ Hmk Hp1).
  by apply read_log_tail_undecodable with (bytes := bytes).
Qed.

(** A log that ends in the middle of a three-byte character. *)
Lemma task_log_reader_undecodable_witness :
  let cut := "ok" +:+ String (ascii_of_nat 228) (str1 (ascii_of_nat 184)) in
  let fs : filesystem := <[ "/workspace/projects/logs/job_7.log" := File cut ]> logged_fs in
  makedirs (logs_dir ∅) fs = (fs, Return tt)
  ∧ fs !! log_file ∅ "job_7" = Some (File cut)
  ∧ utf8_fault cut ≠ None
  ∧ ∃ detail,
      snd (task_log_reader ∅ "job_7" 5 fs)
      = Return (JsonText (JObj
          [ ("success", JBool false);
            ("message", JStr ("读取日志失败: " +:+ detail)) ])).
Proof.
  intros cut fs.
  assert (H1 : makedirs (logs_dir ∅) fs = (fs, Return tt)).
  { apply mkdirs_all_there. intros q Hq. vm_compute in Hq.
    repeat (apply elem_of_cons in Hq as [-> | Hq]; [reflexivity|]).
    by apply elem_of_nil in Hq. }
  assert (H2 : fs !! log_file ∅ "job_7" = Some (File cut)) by reflexivity.
  assert (H3 : utf8_fault cut ≠ None) by discriminate.
  split; [exact H1|]. split; [exact H2|]. split; [exact H3|].
  destruct (task_log_reader_undecodable ∅ _ _ _ "job_7" 5 H1 H2 H3) as [detail Hcall].
  exists detail. by rewrite Hcall.
Defined.
